(** * Fourthwall storefront client (src/lib/fourthwall/index.ts)

    A shallow embedding of the client module: the two transport helpers
    [fourthwallGet] and [fourthwallPost] and the collection, product and
    cart operations built on them.

    JavaScript values are plain data ([JsVal]); numbers are binary64
    floats.  The platform ([URL], [fetch], [JSON.stringify],
    [Number.prototype.toString]) is a parameter of the development
    ([Runtime]), as are the process environment ([ProcessEnv]) and the
    sibling module ./reshape ([Reshape]).  An asynchronous function is a
    state-passing computation over the provider's state that records
    every request handed to [fetch] and every line given to
    [console.warn]. *)

From Stdlib Require Import String Ascii List Bool ZArith Floats DecimalString Lia.
Import ListNotations.

Set Warnings "-register-all".

Local Open Scope string_scope.
Local Open Scope list_scope.

(** Template literals are concatenations. *)
Local Infix "+++" := String.append (right associativity, at level 60).

(* ================================================================== *)
(** ** JavaScript values *)

Inductive JsVal : Type :=
| JUndefined
| JNull
| JBool (b : bool)
| JNumber (n : float)
| JString (s : string)
| JArray (items : list JsVal)
| JObject (members : list (string * JsVal)).

(** An object is the list of its own members in enumeration order; the
    member names used by this module are never array indices, so that
    order is definition order. *)
Definition JsObj : Type := list (string * JsVal).

(** [!v] is [negb (truthy v)]. *)
Definition truthy (v : JsVal) : bool :=
  match v with
  | JUndefined | JNull => false
  | JBool b => b
  | JNumber n => negb (PrimFloat.eqb n 0%float || negb (PrimFloat.eqb n n))
  | JString s => negb (String.eqb s "")
  | JArray _ | JObject _ => true
  end.

Definition nullish (v : JsVal) : bool :=
  match v with
  | JUndefined | JNull => true
  | _ => false
  end.

Fixpoint obj_lookup (o : JsObj) (k : string) : option JsVal :=
  match o with
  | [] => None
  | (k', v) :: o' => if String.eqb k' k then Some v else obj_lookup o' k
  end.

(** [o[k]] on an object: [undefined] when [k] is not a member. *)
Definition obj_get (o : JsObj) (k : string) : JsVal :=
  match obj_lookup o k with
  | Some v => v
  | None => JUndefined
  end.

(** Defining member [k]: an existing member keeps its place and takes
    the new value, a new member goes last. *)
Fixpoint obj_set (o : JsObj) (k : string) (v : JsVal) : JsObj :=
  match o with
  | [] => [(k, v)]
  | (k', v') :: o' =>
      if String.eqb k' k then (k', v) :: o' else (k', v') :: obj_set o' k v
  end.

(** [{ ...target, ...src }]. *)
Definition obj_assign (target src : JsObj) : JsObj :=
  fold_left (fun o kv => obj_set o (fst kv) (snd kv)) src target.

(** The members a spread [...v] copies.  [undefined], [null], booleans
    and numbers contribute nothing.  Headers are given as a record of
    names to values or left out, which is all the callers in this module
    do; the array-of-pairs and [Headers]-instance forms are outside the
    model. *)
Definition own_entries (v : JsVal) : JsObj :=
  match v with
  | JObject ms => ms
  | _ => []
  end.

(** [v.k] where [v] is not [undefined] or [null], for a name [k] that no
    built-in prototype defines ([results], [slug], [name],
    [description]). *)
Definition member (v : JsVal) (k : string) : JsVal :=
  match v with
  | JObject ms => obj_get ms k
  | _ => JUndefined
  end.

(** Query records, [Record<string, string | number | undefined>]: the
    entries in the order [Object.keys] lists them, one per key. *)
Inductive QueryValue : Type :=
| QUndefined
| QString (s : string)
| QNumber (n : float).

Definition Query : Type := list (string * QueryValue).

Definition Object_keys (q : Query) : list string := map fst q.

Fixpoint query_get (q : Query) (k : string) : QueryValue :=
  match q with
  | [] => QUndefined
  | (k', v) :: q' => if String.eqb k' k then v else query_get q' k
  end.

(* ================================================================== *)
(** ** The platform *)

(** A [URL] object: the parsed record and the list of name-value pairs
    behind its [searchParams]. *)
Record URL (R : Type) : Type := mkURL {
  url_record : R;
  searchParams : list (string * string)
}.
Arguments mkURL {R}.
Arguments url_record {R}.
Arguments searchParams {R}.

(** [searchParams.append(name, value)] adds the pair at the end. *)
Definition searchParams_append {R} (u : URL R) (name value : string) : URL R :=
  mkURL (url_record u) (searchParams u ++ [(name, value)]).

(** What [fetch] is called with. *)
Record Request : Type := mkRequest {
  req_url : string;
  req_init : JsObj
}.

(** A response: its status and what [json()] settles to. *)
Record Response (C : Type) : Type := mkResponse {
  status : float;
  json : C + JsVal
}.
Arguments mkResponse {C}.
Arguments status {C}.
Arguments json {C}.

Inductive FetchOutcome (C : Type) : Type :=
| Rejects (e : C)
| Resolves (r : Response C).
Arguments Rejects {C}.
Arguments Resolves {C}.

(** The cause a failed exchange is caught with, if it failed: the
    rejection of [fetch] or of [json()]. *)
Definition failure {C} (o : FetchOutcome C) : option C :=
  match o with
  | Rejects e => Some e
  | Resolves r =>
      match json r with
      | inl e => Some e
      | inr _ => None
      end
  end.

Class Runtime : Type := {
  (** values [fetch] and [json()] reject with *)
  Cause : Type;
  UrlRecord : Type;
  (** [new URL(s)]; [None] when the constructor throws *)
  URL_new : string -> option (URL UrlRecord);
  URL_toString : URL UrlRecord -> string;
  Number_toString : float -> string;
  (** [JSON.stringify]; [None] is [undefined] *)
  JSON_stringify : JsVal -> option string;
  (** the provider and the network *)
  World : Type;
  fetch : Request -> World -> FetchOutcome Cause * World
}.

(** [process.env]: a variable is unset or holds a string. *)
Class ProcessEnv : Type := {
  NEXT_PUBLIC_FW_API_URL : option string;
  NEXT_PUBLIC_FW_STOREFRONT_TOKEN : option string
}.

(** The exports of ./reshape, which is not among the sources: pure
    functions from provider bodies to the domain types of lib/types. *)
Class Reshape : Type := {
  Cart : Type;
  Product : Type;
  reshapeCart : JsVal -> Cart;
  reshapeProduct : JsVal -> option Product;
  reshapeProducts : JsVal -> list Product
}.

(** [v || d] on an environment variable: unset and empty are falsy. *)
Definition or_default (v : option string) (d : string) : string :=
  match v with
  | Some s => if String.eqb s "" then d else s
  | None => d
  end.

(** [Collection] of lib/types; a member holds whatever the provider
    record held. *)
Record Collection : Type := mkCollection {
  handle : JsVal;
  title : JsVal;
  description : JsVal
}.

Record AddLine : Type := mkAddLine {
  add_merchandiseId : string;
  add_quantity : float
}.

Record UpdateLine : Type := mkUpdateLine {
  line_id : string;
  merchandiseId : string;
  quantity : float
}.

(* ================================================================== *)
(** ** The client *)

Section Client.

Context {RT : Runtime} {EV : ProcessEnv} {RS : Reshape}.

Definition API_URL : string :=
  or_default NEXT_PUBLIC_FW_API_URL "https://storefront-api.fourthwall.com".

Definition STOREFRONT_TOKEN : string :=
  or_default NEXT_PUBLIC_FW_STOREFRONT_TOKEN "".

(** What a call of this module can throw: the object literal the
    helpers throw ([data] is present on POST only), or a [TypeError]
    raised by the engine. *)
Inductive Thrown : Type :=
| TransportError (error : Cause) (url : string) (data : option JsVal)
| TypeError.

(** The state a call runs in: the provider, the requests handed to
    [fetch] so far and the lines written by [console.warn]. *)
Record State : Type := mkState {
  world : World;
  fetched : list Request;
  warned : list string
}.

(** An asynchronous computation that may throw an [E]. *)
Definition Async (E A : Type) : Type := State -> (E + A) * State.

Definition ret {E A} (a : A) : Async E A := fun st => (inr a, st).

Definition throw {E A} (e : E) : Async E A := fun st => (inl e, st).

Definition bind {E A B} (m : Async E A) (k : A -> Async E B) : Async E B :=
  fun st =>
    match m st with
    | (inl e, st') => (inl e, st')
    | (inr a, st') => k a st'
    end.

Definition try_catch {E E' A} (m : Async E A) (h : E -> Async E' A) : Async E' A :=
  fun st =>
    match m st with
    | (inl e, st') => h e st'
    | (inr a, st') => (inr a, st')
    end.

Notation "x <- m ;; k" := (bind m (fun x => k))
  (at level 100, m at next level, right associativity).

(** [await fetch(url, init)]. *)
Definition await_fetch (req : Request) : Async Cause (Response Cause) :=
  fun st =>
    let (o, w) := fetch req (world st) in
    let st' := mkState w (fetched st ++ [req]) (warned st) in
    match o with
    | Rejects e => (inl e, st')
    | Resolves r => (inr r, st')
    end.

(** [await result.json()]. *)
Definition await_json (r : Response Cause) : Async Cause JsVal :=
  fun st => (json r, st).

Definition console_warn {E} (line : string) : Async E unit :=
  fun st => (inr tt, mkState (world st) (fetched st) (warned st ++ [line])).

(** [v.k]: a [TypeError] on [undefined] and [null]. *)
Definition get_prop (v : JsVal) (k : string) : Async Thrown JsVal :=
  if nullish v then throw TypeError else ret (member v k).

Fixpoint mapM {E A B} (f : A -> Async E B) (l : list A) : Async E (list B) :=
  match l with
  | [] => ret []
  | a :: l' => b <- f a ;; bs <- mapM f l' ;; ret (b :: bs)
  end.

(** [v.map(f)]: only an array has a [map] to call. *)
Definition Array_map {B} (v : JsVal) (f : JsVal -> Async Thrown B) : Async Thrown (list B) :=
  match v with
  | JArray items => mapM f items
  | _ => throw TypeError
  end.

(** [options: RequestInit = {}]. *)
Definition default_options : JsObj := [].

(** *** Helpers *)

(** [query[key].toString()] for a defined value. *)
Definition QueryValue_toString (v : QueryValue) : string :=
  match v with
  | QUndefined => ""
  | QString s => s
  | QNumber n => Number_toString n
  end.

(** Lines 14-19: the loop over [Object.keys(query)] and the token. *)
Definition constructUrl (u : URL UrlRecord) (query : Query) : URL UrlRecord :=
  let constructedUrl :=
    fold_left
      (fun acc key =>
         match query_get query key with
         | QUndefined => acc
         | v => searchParams_append acc key (QueryValue_toString v)
         end)
      (Object_keys query) u in
  searchParams_append constructedUrl "storefront_token" STOREFRONT_TOKEN.

(** Lines 23-30 and 50-55: [{ method, ...options, headers: {...} }]. *)
Definition request_init (method : string) (options : JsObj) : JsObj :=
  obj_set
    (obj_assign [("method", JString method)] options)
    "headers"
    (JObject
       (obj_assign [("Content-Type", JString "application/json")]
          (own_entries (obj_get options "headers")))).

Definition stringified (data : JsVal) : JsVal :=
  match JSON_stringify data with
  | Some s => JString s
  | None => JUndefined
  end.

Definition get_request (u : URL UrlRecord) (query : Query) (options : JsObj) : Request :=
  mkRequest (URL_toString (constructUrl u query)) (request_init "GET" options).

Definition post_request (url : string) (data : JsVal) (options : JsObj) : Request :=
  mkRequest
    (url +++ "?storefront_token=" +++ STOREFRONT_TOKEN)
    (obj_set (request_init "POST" options) "body" (stringified data)).

(** The exchange inside both [try] blocks. *)
Definition exchange (req : Request) : Async Cause (float * JsVal) :=
  result <- await_fetch req ;;
  body <- await_json result ;;
  ret (status result, body).

Definition fourthwallGet (url : string) (query : Query) (options : JsObj)
  : Async Thrown (float * JsVal) :=
  match URL_new url with
  | None => throw TypeError
  | Some u =>
      try_catch (exchange (get_request u query options))
        (fun e => throw (TransportError e url None))
  end.

Definition fourthwallPost (url : string) (data : JsVal) (options : JsObj)
  : Async Thrown (float * JsVal) :=
  try_catch (exchange (post_request url data options))
    (fun e => throw (TransportError e url (Some data))).

(** *** Collection operations *)

Definition getCollections : Async Thrown (list Collection) :=
  res <- fourthwallGet (API_URL +++ "/api/public/v1.0/collections") [] default_options ;;
  results <- get_prop (snd res) "results" ;;
  Array_map results (fun collection =>
    slug <- get_prop collection "slug" ;;
    name <- get_prop collection "name" ;;
    description <- get_prop collection "description" ;;
    ret (mkCollection slug name description)).

Definition optional_number (n : option float) : QueryValue :=
  match n with
  | Some x => QNumber x
  | None => QUndefined
  end.

Definition getCollectionProducts (collection currency : string) (limit : option float)
  : Async Thrown (list Product) :=
  res <- fourthwallGet (API_URL +++ "/v1/collections/" +++ collection +++ "/products")
           [("currency", QString currency); ("limit", optional_number limit)]
           default_options ;;
  results <- get_prop (snd res) "results" ;;
  if negb (truthy results) then
    _ <- console_warn ("No collection found for `" +++ collection +++ "`") ;;
    ret []
  else
    ret (reshapeProducts results).

(** *** Product operations *)

Definition getProduct (handle currency : string) : Async Thrown (option Product) :=
  res <- fourthwallGet (API_URL +++ "/v1/products/" +++ handle)
           [("currency", QString currency)] default_options ;;
  ret (reshapeProduct (snd res)).

(** *** Cart operations *)

Definition no_store : JsObj := [("cache", JString "no-store")].

(** [!cartId] on [string | undefined]. *)
Definition cartId_falsy (cartId : option string) : bool :=
  match cartId with
  | None => true
  | Some s => String.eqb s ""
  end.

Definition cartId_text (cartId : option string) : string :=
  match cartId with
  | None => "undefined"
  | Some s => s
  end.

Definition getCart (cartId : option string) (currency : string)
  : Async Thrown (option Cart) :=
  if cartId_falsy cartId then ret None
  else
    res <- fourthwallGet (API_URL +++ "/v1/carts/" +++ cartId_text cartId)
             [("currency", QString currency)] no_store ;;
    ret (Some (reshapeCart (snd res))).

Definition createCart : Async Thrown Cart :=
  res <- fourthwallPost (API_URL +++ "/v1/carts")
           (JObject [("items", JArray [])]) default_options ;;
  ret (reshapeCart (snd res)).

Definition addToCart (cartId : string) (lines : list AddLine) : Async Thrown Cart :=
  let items :=
    map (fun line =>
           JObject [("variantId", JString (add_merchandiseId line));
                    ("quantity", JNumber (add_quantity line))]) lines in
  res <- fourthwallPost (API_URL +++ "/v1/carts/" +++ cartId +++ "/add")
           (JObject [("items", JArray items)]) no_store ;;
  ret (reshapeCart (snd res)).

Definition removeFromCart (cartId : string) (lineIds : list string) : Async Thrown Cart :=
  let items := map (fun id => JObject [("variantId", JString id)]) lineIds in
  res <- fourthwallPost (API_URL +++ "/v1/carts/" +++ cartId +++ "/remove")
           (JObject [("items", JArray items)]) no_store ;;
  ret (reshapeCart (snd res)).

Definition updateCart (cartId : string) (lines : list UpdateLine) : Async Thrown Cart :=
  let items :=
    map (fun line =>
           JObject [("variantId", JString (merchandiseId line));
                    ("quantity", JNumber (quantity line))]) lines in
  res <- fourthwallPost (API_URL +++ "/v1/carts/" +++ cartId +++ "/change")
           (JObject [("items", JArray items)]) no_store ;;
  ret (reshapeCart (snd res)).

(** *** Observing a run *)

(** What the transport answers to [req] from state [st], and the state
    the call leaves behind. *)
Definition outcome (st : State) (req : Request) : FetchOutcome Cause :=
  fst (fetch req (world st)).

Definition after_fetch (st : State) (req : Request) : State :=
  mkState (snd (fetch req (world st))) (fetched st ++ [req]) (warned st).

Definition after_warn (st : State) (line : string) : State :=
  mkState (world st) (fetched st) (warned st ++ [line]).

(** The spec's wording of the query part of a GET URL: the defined
    parameters, in the order of the mapping. *)
Definition defined_params (query : Query) : list (string * string) :=
  flat_map
    (fun kv =>
       match snd kv with
       | QUndefined => []
       | v => [(fst kv, QueryValue_toString v)]
       end)
    query.

(** The spec's wording of the collection mapping:
    [{ handle: slug, title: name, description }]. *)
Definition collection_of (c : JsVal) : Collection :=
  mkCollection (member c "slug") (member c "name") (member c "description").

(** What a helper call settles to, given the transport's answer. *)
Definition settled (o : FetchOutcome Cause) (url : string) (data : option JsVal)
  : Thrown + (float * JsVal) :=
  match o with
  | Rejects e => inl (TransportError e url data)
  | Resolves r =>
      match json r with
      | inl e => inl (TransportError e url data)
      | inr body => inr (status r, body)
      end
  end.

(** A call fails once: when the exchange for [req] fails with cause
    [e], the call throws the transport error for [e] and leaves exactly
    that one request behind. *)
Definition fails_once {A} (call : Async Thrown A) (st : State) (req : Request)
    (e : Cause) (url : string) (data : option JsVal) : Prop :=
  failure (outcome st req) = Some e ->
  call st = (inl (TransportError e url data), after_fetch st req).

(** A result that, if it is a throw, is the transport error for [url]
    and [data], never a [TypeError]. *)
Definition throws_only {A} (result : Thrown + A) (url : string) (data : option JsVal)
  : Prop :=
  match result with
  | inl (TransportError _ url' data') => url' = url /\ data' = data
  | inl TypeError => False
  | inr _ => True
  end.

(** Headers left out or given as a record: the forms whose spread
    [own_entries] describes. *)
Definition record_or_absent (v : JsVal) : bool :=
  match v with
  | JArray _ | JString _ => false
  | _ => true
  end.

(** [new] is [old] followed by at most [n] further entries. *)
Definition extends_by {A} (n : nat) (old new : list A) : Prop :=
  exists more, new = old ++ more /\ length more <= n.

End Client.

Notation "x <- m ;; k" := (bind m (fun x => k))
  (at level 100, m at next level, right associativity).

(* ================================================================== *)
(** ** A small runtime to run the client on *)

Module Demo.

Definition quote_char : string := String (ascii_of_nat 34) "".

Definition quoted (s : string) : string := quote_char +++ s +++ quote_char.

Fixpoint join (sep : string) (l : list string) : string :=
  match l with
  | [] => ""
  | [s] => s
  | s :: l' => s +++ sep +++ join sep l'
  end.

(** Integral numbers print in decimal. *)
Definition number_text (n : float) : string :=
  match Prim2SF n with
  | S754_zero _ => "0"
  | S754_infinity s => if s then "-Infinity" else "Infinity"
  | S754_nan => "NaN"
  | S754_finite s m e =>
      let z := if (0 <=? e)%Z then (Zpos m * 2 ^ e)%Z else Z.shiftr (Zpos m) (- e) in
      NilZero.string_of_int (Z.to_int (if s then (- z)%Z else z))
  end.

(** Serialisation without escapes. *)
Fixpoint json_text (v : JsVal) : string :=
  match v with
  | JUndefined | JNull => "null"
  | JBool b => if b then "true" else "false"
  | JNumber n => number_text n
  | JString s => quoted s
  | JArray items => "[" +++ join "," (map json_text items) +++ "]"
  | JObject members =>
      "{" +++ join ","
        (flat_map
           (fun kv : string * JsVal =>
              let (k, x) := kv in
              match x with
              | JUndefined => @nil string
              | _ => [quoted k +++ ":" +++ json_text x]
              end)
           members) +++ "}"
  end.

Definition stringify (v : JsVal) : option string :=
  match v with
  | JUndefined => None
  | _ => Some (json_text v)
  end.

Definition parse_url (s : string) : option (URL string) :=
  if String.prefix "https://" s then Some (mkURL s []) else None.

Definition url_text (u : URL string) : string :=
  url_record u +++ "?" +++
  join "&" (map (fun kv => fst kv +++ "=" +++ snd kv) (searchParams u)).

(** The provider is a script of outcomes, consumed one per request. *)
Definition scripted (req : Request) (w : list (FetchOutcome string))
  : FetchOutcome string * list (FetchOutcome string) :=
  match w with
  | o :: w' => (o, w')
  | [] => (Rejects "offline", [])
  end.

#[export] Instance runtime : Runtime := {|
  Cause := string;
  UrlRecord := string;
  URL_new := parse_url;
  URL_toString := url_text;
  Number_toString := number_text;
  JSON_stringify := stringify;
  World := list (FetchOutcome string);
  fetch := scripted
|}.

(** Both variables unset: the documented defaults apply. *)
#[export] Instance env : ProcessEnv := {|
  NEXT_PUBLIC_FW_API_URL := None;
  NEXT_PUBLIC_FW_STOREFRONT_TOKEN := None
|}.

#[export] Instance reshape : Reshape := {|
  Cart := JsVal;
  Product := JsVal;
  reshapeCart := fun body => body;
  reshapeProduct := fun body => if nullish body then None else Some body;
  reshapeProducts := fun results =>
    match results with
    | JArray items => items
    | _ => []
    end
|}.

(** The default [API_URL]. *)
Definition shop : string := "https://storefront-api.fourthwall.com".

(** An environment whose API URL the URL constructor refuses. *)
Definition misconfigured : ProcessEnv := {|
  NEXT_PUBLIC_FW_API_URL := Some "storefront.local";
  NEXT_PUBLIC_FW_STOREFRONT_TOKEN := Some "ptkn_1"
|}.

(** A state whose provider plays the script [w]. *)
Definition start (w : list (FetchOutcome string)) : State := mkState (w : World) [] [].

Definition ok (body : JsVal) : FetchOutcome string :=
  Resolves (mkResponse 200%float (inr body)).

Definition garbled : FetchOutcome string :=
  Resolves (mkResponse 502%float (inl "Unexpected token < in JSON")).

End Demo.

(* ================================================================== *)
(** ** Properties of the transport helpers *)

Lemma append_assoc (a b c : string) : (a +++ b) +++ c = a +++ b +++ c.
Proof. induction a as [| ch a IH]; simpl; [reflexivity | now rewrite IH]. Qed.

Section Helpers.

Context {RT : Runtime} {EV : ProcessEnv} {RS : Reshape}.

Ltac run_exchange req st :=
  unfold exchange, bind, await_fetch, await_json, ret, outcome, after_fetch in *;
  destruct (fetch req (world st)) as [o w]; simpl in *.

(** Whatever the transport answers, an exchange calls [fetch] once. *)
Lemma exchange_runs_once (req : Request) (st : State) :
  snd (exchange req st) = after_fetch st req.
Proof.
  run_exchange req st.
  destruct o as [e | r]; simpl; [reflexivity |].
  destruct (json r); reflexivity.
Qed.

Lemma exchange_fails (req : Request) (st : State) (e : Cause) :
  failure (outcome st req) = Some e ->
  exchange req st = (inl e, after_fetch st req).
Proof.
  intros H. run_exchange req st.
  destruct o as [e' | r]; simpl in H.
  - now inversion H.
  - destruct (json r); [now inversion H | discriminate].
Qed.

Lemma exchange_succeeds (req : Request) (st : State) (r : Response Cause) (body : JsVal) :
  outcome st req = Resolves r ->
  json r = inr body ->
  exchange req st = (inr (status r, body), after_fetch st req).
Proof.
  intros Ho Hj. run_exchange req st. subst o. now rewrite Hj.
Qed.

Lemma fourthwallGet_invalid_url (url : string) (query : Query) (options : JsObj) (st : State) :
  URL_new url = None ->
  fourthwallGet url query options st = (inl TypeError, st).
Proof. intros H. unfold fourthwallGet. now rewrite H. Qed.

Lemma fourthwallGet_runs_once url query options u st :
  URL_new url = Some u ->
  snd (fourthwallGet url query options st) = after_fetch st (get_request u query options).
Proof.
  intros H. unfold fourthwallGet, try_catch. rewrite H.
  rewrite <- (exchange_runs_once (get_request u query options) st).
  destruct (exchange _ st) as [[e | a] st']; reflexivity.
Qed.

Lemma fourthwallGet_fails url query options u st e :
  URL_new url = Some u ->
  failure (outcome st (get_request u query options)) = Some e ->
  fourthwallGet url query options st
  = (inl (TransportError e url None), after_fetch st (get_request u query options)).
Proof.
  intros H Hf. unfold fourthwallGet, try_catch. rewrite H.
  now rewrite (exchange_fails _ _ _ Hf).
Qed.

Lemma fourthwallGet_succeeds url query options u st r body :
  URL_new url = Some u ->
  outcome st (get_request u query options) = Resolves r ->
  json r = inr body ->
  fourthwallGet url query options st
  = (inr (status r, body), after_fetch st (get_request u query options)).
Proof.
  intros H Ho Hj. unfold fourthwallGet, try_catch. rewrite H.
  now rewrite (exchange_succeeds _ _ _ _ Ho Hj).
Qed.

Lemma fourthwallPost_runs_once url data options st :
  snd (fourthwallPost url data options st) = after_fetch st (post_request url data options).
Proof.
  unfold fourthwallPost, try_catch.
  rewrite <- (exchange_runs_once (post_request url data options) st).
  destruct (exchange _ st) as [[e | a] st']; reflexivity.
Qed.

Lemma fourthwallPost_fails url data options st e :
  failure (outcome st (post_request url data options)) = Some e ->
  fourthwallPost url data options st
  = (inl (TransportError e url (Some data)), after_fetch st (post_request url data options)).
Proof.
  intros Hf. unfold fourthwallPost, try_catch.
  now rewrite (exchange_fails _ _ _ Hf).
Qed.

Lemma fourthwallPost_succeeds url data options st r body :
  outcome st (post_request url data options) = Resolves r ->
  json r = inr body ->
  fourthwallPost url data options st
  = (inr (status r, body), after_fetch st (post_request url data options)).
Proof.
  intros Ho Hj. unfold fourthwallPost, try_catch.
  now rewrite (exchange_succeeds _ _ _ _ Ho Hj).
Qed.

Lemma bind_returns {E A B} (m : Async E A) (k : A -> Async E B) st a st' :
  m st = (inr a, st') -> (x <- m ;; k x) st = k a st'.
Proof. intros H. unfold bind. now rewrite H. Qed.

Lemma fourthwallGet_settles url query options u st :
  URL_new url = Some u ->
  fourthwallGet url query options st
  = (settled (outcome st (get_request u query options)) url None,
     after_fetch st (get_request u query options)).
Proof.
  intros H. unfold fourthwallGet, try_catch, throw. rewrite H.
  set (req := get_request u query options).
  run_exchange req st. destruct o as [e | r]; simpl; [reflexivity |].
  destruct (json r); reflexivity.
Qed.

Lemma fourthwallPost_settles url data options st :
  fourthwallPost url data options st
  = (settled (outcome st (post_request url data options)) url (Some data),
     after_fetch st (post_request url data options)).
Proof.
  unfold fourthwallPost, try_catch, throw.
  set (req := post_request url data options).
  run_exchange req st. destruct o as [e | r]; simpl; [reflexivity |].
  destruct (json r); reflexivity.
Qed.

Lemma settled_failure (o : FetchOutcome Cause) url data e :
  failure o = Some e -> settled o url data = inl (TransportError e url data).
Proof.
  destruct o as [e' | r]; simpl.
  - now intros [= ->].
  - destruct (json r); [now intros [= ->] | discriminate].
Qed.

(** *** The query loop *)

Lemma query_get_head (k : string) (v : QueryValue) (q : Query) :
  query_get ((k, v) :: q) k = v.
Proof. simpl. now rewrite String.eqb_refl. Qed.

Lemma query_get_unique (q : Query) :
  NoDup (Object_keys q) ->
  forall k v, In (k, v) q -> query_get q k = v.
Proof.
  induction q as [| [k' v'] q IH]; intros Hnd k v Hin; [contradiction |].
  simpl in Hnd. inversion Hnd as [| ? ? Hnotin Hnd']; subst.
  destruct Hin as [Heq | Hin].
  - inversion Heq; subst. apply query_get_head.
  - simpl. destruct (String.eqb_spec k' k) as [-> | Hne].
    + exfalso. apply Hnotin. unfold Object_keys.
      change k with (fst (k, v)). now apply in_map.
    + now apply IH.
Qed.

(** The loop of lines 14-18 over any part of the mapping on which
    lookup returns the listed value. *)
Lemma query_loop (q : Query) (entries : Query) (u : URL UrlRecord) :
  (forall k v, In (k, v) entries -> query_get q k = v) ->
  fold_left
    (fun acc key =>
       match query_get q key with
       | QUndefined => acc
       | v => searchParams_append acc key (QueryValue_toString v)
       end)
    (Object_keys entries) u
  = mkURL (url_record u) (searchParams u ++ defined_params entries).
Proof.
  revert u. induction entries as [| [k v] entries IH]; intros u Hlook.
  - simpl. rewrite app_nil_r. now destruct u.
  - simpl. rewrite (Hlook k v (or_introl eq_refl)).
    assert (Hrest : forall k0 v0, In (k0, v0) entries -> query_get q k0 = v0)
      by (intros; apply Hlook; now right).
    destruct v; rewrite (IH _ Hrest); simpl; try reflexivity;
      now rewrite <- app_assoc.
Qed.

Lemma constructUrl_params (u : URL UrlRecord) (query : Query) :
  NoDup (Object_keys query) ->
  constructUrl u query
  = mkURL (url_record u)
      (searchParams u ++ defined_params query ++ [("storefront_token", STOREFRONT_TOKEN)]).
Proof.
  intros Hnd. unfold constructUrl.
  rewrite (query_loop query query u (query_get_unique query Hnd)).
  unfold searchParams_append. simpl. now rewrite <- app_assoc.
Qed.

(** C7: the URL the GET helper fetches is the parsed base URL with, after
    whatever query the base already had, exactly the defined query
    parameters in the order of the mapping (undefined ones left out)
    followed by the storefront token; the POST helper fetches the
    resource URL with the token as its query.  Either way the call that
    goes out carries the token. *)
Theorem helper_urls_carry_params_then_token
    (url : string) (query : Query) (data : JsVal) (options : JsObj)
    (u : URL UrlRecord) (st : State) :
  NoDup (Object_keys query) ->
  URL_new url = Some u ->
  fetched (snd (fourthwallGet url query options st))
  = fetched st ++
      [mkRequest
         (URL_toString
            (mkURL (url_record u)
               (searchParams u ++ defined_params query
                  ++ [("storefront_token", STOREFRONT_TOKEN)])))
         (request_init "GET" options)]
  /\ fetched (snd (fourthwallPost url data options st))
     = fetched st ++
         [mkRequest (url +++ "?storefront_token=" +++ STOREFRONT_TOKEN)
            (obj_set (request_init "POST" options) "body" (stringified data))].
Proof.
  intros Hnd Hu. split.
  - rewrite (fourthwallGet_runs_once _ _ _ _ _ Hu). simpl.
    unfold get_request. now rewrite (constructUrl_params u query Hnd).
  - now rewrite fourthwallPost_runs_once.
Qed.

End Helpers.

(* ================================================================== *)
(** ** Properties of the operations *)

Section Operations.

Context {RT : Runtime} {EV : ProcessEnv} {RS : Reshape}.

(** A cart mutation is one POST followed by a reshape. *)
Lemma post_then_reshape url data options st :
  (res <- fourthwallPost url data options ;; ret (reshapeCart (snd res))) st
  = (match settled (outcome st (post_request url data options)) url (Some data) with
     | inl t => inl t
     | inr res => inr (reshapeCart (snd res))
     end,
     after_fetch st (post_request url data options)).
Proof.
  unfold bind, ret. rewrite fourthwallPost_settles.
  now destruct (settled _ url (Some data)).
Qed.

Lemma no_store_reaches_fetch url data :
  obj_lookup (req_init (post_request url data no_store)) "cache"
  = Some (JString "no-store").
Proof. reflexivity. Qed.

Lemma default_options_have_no_cache url data :
  obj_lookup (req_init (post_request url data default_options)) "cache" = None.
Proof. reflexivity. Qed.

(** C1 (evaluation of the code): [createCart] calls the POST helper
    without options, so the one request it issues has no [cache] member,
    while the requests of [addToCart], [removeFromCart] and [updateCart]
    carry [cache: no-store]. *)
Theorem createCart_request_has_no_cache_member
    (cartId : string) (adds : list AddLine) (ids : list string)
    (updates : list UpdateLine) (st : State) :
  (exists req,
      fetched (snd (createCart st)) = fetched st ++ [req]
      /\ req = post_request (API_URL +++ "/v1/carts") (JObject [("items", JArray [])])
                 default_options
      /\ obj_lookup (req_init req) "cache" = None)
  /\ (exists req,
        fetched (snd (addToCart cartId adds st)) = fetched st ++ [req]
        /\ obj_lookup (req_init req) "cache" = Some (JString "no-store"))
  /\ (exists req,
        fetched (snd (removeFromCart cartId ids st)) = fetched st ++ [req]
        /\ obj_lookup (req_init req) "cache" = Some (JString "no-store"))
  /\ (exists req,
        fetched (snd (updateCart cartId updates st)) = fetched st ++ [req]
        /\ obj_lookup (req_init req) "cache" = Some (JString "no-store")).
Proof.
  split; [| split; [| split]]; eexists.
  - unfold createCart. rewrite post_then_reshape. simpl.
    split; [reflexivity | split; [reflexivity |]].
    apply default_options_have_no_cache.
  - unfold addToCart. rewrite post_then_reshape. simpl.
    split; [reflexivity | apply no_store_reaches_fetch].
  - unfold removeFromCart. rewrite post_then_reshape. simpl.
    split; [reflexivity | apply no_store_reaches_fetch].
  - unfold updateCart. rewrite post_then_reshape. simpl.
    split; [reflexivity | apply no_store_reaches_fetch].
Qed.

(** A list described entry by entry is the image of the list it is
    described from. *)
Lemma list_from_entries {A B} (f : A -> B) (l : list A) (m : list B) :
  length m = length l ->
  (forall i a, nth_error l i = Some a -> nth_error m i = Some (f a)) ->
  m = map f l.
Proof.
  revert m. induction l as [| a l IH]; intros [| b m] Hlen Hnth;
    try discriminate; [reflexivity |].
  simpl. f_equal.
  - specialize (Hnth 0 a eq_refl). now inversion Hnth.
  - apply IH; [now inversion Hlen |].
    intros i a' Ha. exact (Hnth (S i) a' Ha).
Qed.

(** The request of a cart mutation that passes [cache: no-store], once
    the payload serialises to [text]. *)
Lemma post_request_no_store (url : string) (data : JsVal) (text : string) :
  JSON_stringify data = Some text ->
  post_request url data no_store
  = mkRequest (url +++ "?storefront_token=" +++ STOREFRONT_TOKEN)
      [("method", JString "POST");
       ("cache", JString "no-store");
       ("headers", JObject [("Content-Type", JString "application/json")]);
       ("body", JString text)].
Proof.
  intros H. unfold post_request, stringified. now rewrite H.
Qed.

(** C2: let [items] be the list with one entry per input line, in order,
    the entry for a line being exactly
    [{ variantId: merchandiseId, quantity }], and let [text] be what
    [JSON.stringify] makes of [{ items }].  Then the one request
    [updateCart] hands to fetch is the POST to the change endpoint whose
    body is [text].  The line's own [id] is in no entry, and giving the
    lines other ids changes nothing of the call: same request, same
    result. *)
Theorem updateCart_sends_variant_and_quantity_only
    (cartId : string) (lines : list UpdateLine) (items : list JsVal) (text : string)
    (relabel : UpdateLine -> string) (st : State) :
  length items = length lines ->
  (forall i line,
      nth_error lines i = Some line ->
      nth_error items i
      = Some (JObject [("variantId", JString (merchandiseId line));
                       ("quantity", JNumber (quantity line))])) ->
  JSON_stringify (JObject [("items", JArray items)]) = Some text ->
  fetched (snd (updateCart cartId lines st))
  = fetched st ++
      [mkRequest
         (API_URL +++ "/v1/carts/" +++ cartId +++ "/change?storefront_token="
          +++ STOREFRONT_TOKEN)
         [("method", JString "POST");
          ("cache", JString "no-store");
          ("headers", JObject [("Content-Type", JString "application/json")]);
          ("body", JString text)]]
  /\ updateCart cartId
       (map (fun l => mkUpdateLine (relabel l) (merchandiseId l) (quantity l)) lines) st
     = updateCart cartId lines st.
Proof.
  intros Hlen Hnth Htext.
  rewrite (list_from_entries _ _ _ Hlen Hnth) in Htext.
  split.
  - unfold updateCart. rewrite post_then_reshape. cbn [snd after_fetch fetched].
    rewrite (post_request_no_store _ _ _ Htext). now rewrite !append_assoc.
  - unfold updateCart. now rewrite map_map.
Qed.

(** C8: let [items] be the list with one entry per input line, in order,
    the entry for a line being exactly
    [{ variantId: merchandiseId, quantity }], and let [text] be what
    [JSON.stringify] makes of [{ items }].  Then the one request
    [addToCart] hands to fetch is the POST to
    [.../v1/carts/{cartId}/add], with [cache: no-store], whose body is
    [text]. *)
Theorem addToCart_posts_lines_in_order
    (cartId : string) (lines : list AddLine) (items : list JsVal) (text : string)
    (st : State) :
  length items = length lines ->
  (forall i line,
      nth_error lines i = Some line ->
      nth_error items i
      = Some (JObject [("variantId", JString (add_merchandiseId line));
                       ("quantity", JNumber (add_quantity line))])) ->
  JSON_stringify (JObject [("items", JArray items)]) = Some text ->
  fetched (snd (addToCart cartId lines st))
  = fetched st ++
      [mkRequest
         (API_URL +++ "/v1/carts/" +++ cartId +++ "/add?storefront_token="
          +++ STOREFRONT_TOKEN)
         [("method", JString "POST");
          ("cache", JString "no-store");
          ("headers", JObject [("Content-Type", JString "application/json")]);
          ("body", JString text)]].
Proof.
  intros Hlen Hnth Htext.
  rewrite (list_from_entries _ _ _ Hlen Hnth) in Htext.
  unfold addToCart. rewrite post_then_reshape. cbn [snd after_fetch fetched].
  rewrite (post_request_no_store _ _ _ Htext). now rewrite !append_assoc.
Qed.

(** C9: let [items] be the list with one entry per line id, in order,
    the entry for an id being exactly [{ variantId: id }], a record with
    that one member and so without [quantity], and let [text] be what
    [JSON.stringify] makes of [{ items }].  Then the one request
    [removeFromCart] hands to fetch is the POST to
    [.../v1/carts/{cartId}/remove] whose body is [text]. *)
Theorem removeFromCart_posts_ids_in_order
    (cartId : string) (lineIds : list string) (items : list JsVal) (text : string)
    (st : State) :
  length items = length lineIds ->
  (forall i id,
      nth_error lineIds i = Some id ->
      nth_error items i = Some (JObject [("variantId", JString id)])) ->
  JSON_stringify (JObject [("items", JArray items)]) = Some text ->
  fetched (snd (removeFromCart cartId lineIds st))
  = fetched st ++
      [mkRequest
         (API_URL +++ "/v1/carts/" +++ cartId +++ "/remove?storefront_token="
          +++ STOREFRONT_TOKEN)
         [("method", JString "POST");
          ("cache", JString "no-store");
          ("headers", JObject [("Content-Type", JString "application/json")]);
          ("body", JString text)]].
Proof.
  intros Hlen Hnth Htext.
  rewrite (list_from_entries _ _ _ Hlen Hnth) in Htext.
  unfold removeFromCart. rewrite post_then_reshape. cbn [snd after_fetch fetched].
  rewrite (post_request_no_store _ _ _ Htext). now rewrite !append_assoc.
Qed.

(** *** Failures of the transport *)

Lemma get_then_fails_once {A} url query options u (k : float * JsVal -> Async Thrown A)
    (st : State) (e : Cause) :
  URL_new url = Some u ->
  fails_once (res <- fourthwallGet url query options ;; k res) st
    (get_request u query options) e url None.
Proof.
  intros Hu Hf. unfold bind.
  now rewrite (fourthwallGet_settles _ _ _ _ _ Hu), (settled_failure _ _ _ _ Hf).
Qed.

Lemma post_then_fails_once {A} url data options (k : float * JsVal -> Async Thrown A)
    (st : State) (e : Cause) :
  fails_once (res <- fourthwallPost url data options ;; k res) st
    (post_request url data options) e url (Some data).
Proof.
  intros Hf. unfold bind.
  now rewrite fourthwallPost_settles, (settled_failure _ _ _ _ Hf).
Qed.

Lemma cartId_truthy (cartId : string) :
  cartId <> "" -> cartId_falsy (Some cartId) = false.
Proof. intros H. simpl. now apply String.eqb_neq. Qed.

(** C3: when the exchange of a GET-based operation fails (fetch rejects
    or the body does not parse) with cause [e], the operation throws the
    object holding [e] and the URL the helper was asked for, with no
    payload, having called fetch once; a POST-based operation throws the
    object that also holds the payload, having called fetch once. *)
Theorem transport_failure_is_thrown_once (st : State) (e : Cause) :
  (forall u,
      URL_new (API_URL +++ "/api/public/v1.0/collections") = Some u ->
      fails_once getCollections st
        (get_request u [] default_options)
        e (API_URL +++ "/api/public/v1.0/collections") None)
  /\ (forall collection currency limit u,
        URL_new (API_URL +++ "/v1/collections/" +++ collection +++ "/products") = Some u ->
        fails_once (getCollectionProducts collection currency limit) st
          (get_request u
             [("currency", QString currency); ("limit", optional_number limit)]
             default_options)
          e (API_URL +++ "/v1/collections/" +++ collection +++ "/products") None)
  /\ (forall handle currency u,
        URL_new (API_URL +++ "/v1/products/" +++ handle) = Some u ->
        fails_once (getProduct handle currency) st
          (get_request u [("currency", QString currency)] default_options)
          e (API_URL +++ "/v1/products/" +++ handle) None)
  /\ (forall cartId currency u,
        cartId <> "" ->
        URL_new (API_URL +++ "/v1/carts/" +++ cartId) = Some u ->
        fails_once (getCart (Some cartId) currency) st
          (get_request u [("currency", QString currency)] no_store)
          e (API_URL +++ "/v1/carts/" +++ cartId) None)
  /\ fails_once createCart st
       (post_request (API_URL +++ "/v1/carts") (JObject [("items", JArray [])])
          default_options)
       e (API_URL +++ "/v1/carts") (Some (JObject [("items", JArray [])]))
  /\ (forall cartId lines,
        let data :=
          JObject
            [("items",
              JArray
                (map (fun line =>
                        JObject [("variantId", JString (add_merchandiseId line));
                                 ("quantity", JNumber (add_quantity line))]) lines))] in
        fails_once (addToCart cartId lines) st
          (post_request (API_URL +++ "/v1/carts/" +++ cartId +++ "/add") data no_store)
          e (API_URL +++ "/v1/carts/" +++ cartId +++ "/add") (Some data))
  /\ (forall cartId lineIds,
        let data :=
          JObject
            [("items",
              JArray (map (fun id => JObject [("variantId", JString id)]) lineIds))] in
        fails_once (removeFromCart cartId lineIds) st
          (post_request (API_URL +++ "/v1/carts/" +++ cartId +++ "/remove") data no_store)
          e (API_URL +++ "/v1/carts/" +++ cartId +++ "/remove") (Some data))
  /\ (forall cartId lines,
        let data :=
          JObject
            [("items",
              JArray
                (map (fun line =>
                        JObject [("variantId", JString (merchandiseId line));
                                 ("quantity", JNumber (quantity line))]) lines))] in
        fails_once (updateCart cartId lines) st
          (post_request (API_URL +++ "/v1/carts/" +++ cartId +++ "/change") data no_store)
          e (API_URL +++ "/v1/carts/" +++ cartId +++ "/change") (Some data)).
Proof.
  split; [| split; [| split; [| split; [| split; [| split; [| split]]]]]].
  - intros u Hu. unfold getCollections. now apply get_then_fails_once.
  - intros collection currency limit u Hu. unfold getCollectionProducts.
    now apply get_then_fails_once.
  - intros handle currency u Hu. unfold getProduct. now apply get_then_fails_once.
  - intros cartId currency u Hne Hu. unfold getCart.
    rewrite (cartId_truthy _ Hne). now apply get_then_fails_once.
  - unfold createCart. apply post_then_fails_once.
  - intros cartId lines data. unfold addToCart. apply post_then_fails_once.
  - intros cartId lineIds data. unfold removeFromCart. apply post_then_fails_once.
  - intros cartId lines data. unfold updateCart. apply post_then_fails_once.
Qed.

(** *** Reading a cart *)

(** C4 (amended): an absent cart id gives [undefined] and leaves the
    state untouched; a cart id that is not the empty string, whose cart
    URL parses, gives exactly one call of fetch, a GET with
    [cache: no-store] on the cart URL extended by the currency and the
    token, and the result is the reshaped body when that exchange
    succeeds (the transport error otherwise). *)
Theorem getCart_absent_or_single_get
    (cartId currency : string) (u : URL UrlRecord) (st : State) :
  cartId <> "" ->
  URL_new (API_URL +++ "/v1/carts/" +++ cartId) = Some u ->
  let req := get_request u [("currency", QString currency)] no_store in
  getCart None currency st = (inr None, st)
  /\ fetched (snd (getCart (Some cartId) currency st)) = fetched st ++ [req]
  /\ req_url req
     = URL_toString
         (mkURL (url_record u)
            (searchParams u ++
               [("currency", currency); ("storefront_token", STOREFRONT_TOKEN)]))
  /\ obj_lookup (req_init req) "method" = Some (JString "GET")
  /\ obj_lookup (req_init req) "cache" = Some (JString "no-store")
  /\ getCart (Some cartId) currency st
     = (match settled (outcome st req) (API_URL +++ "/v1/carts/" +++ cartId) None with
        | inl t => inl t
        | inr res => inr (Some (reshapeCart (snd res)))
        end,
        after_fetch st req).
Proof.
  intros Hne Hu req.
  assert (Hrun : getCart (Some cartId) currency st
                 = (match settled (outcome st req) (API_URL +++ "/v1/carts/" +++ cartId) None with
                    | inl t => inl t
                    | inr res => inr (Some (reshapeCart (snd res)))
                    end,
                    after_fetch st req)).
  { unfold getCart. rewrite (cartId_truthy _ Hne). unfold bind, ret.
    cbn [cartId_text]. rewrite (fourthwallGet_settles _ _ _ _ _ Hu).
    fold req. now destruct (settled (outcome st req) _ None). }
  split; [reflexivity |].
  split; [now rewrite Hrun |].
  split.
  { unfold req, get_request. cbn [req_url].
    rewrite constructUrl_params; [reflexivity |].
    constructor; [intros [] | constructor]. }
  split; [reflexivity |].
  split; [reflexivity | exact Hrun].
Qed.

(** C10: the empty string is falsy, so [getCart] with it gives
    [undefined] and leaves the state, request log included, untouched. *)
Theorem getCart_empty_id_short_circuits (currency : string) (st : State) :
  getCart (Some "") currency st = (inr None, st)
  /\ fetched (snd (getCart (Some "") currency st)) = fetched st
  /\ getCart (Some "") currency st = getCart None currency st.
Proof. repeat split. Qed.

(** *** Collections *)

(** C5 (amended): when the provider's body is not [null], a body
    without a [results] member, or with a falsy one, makes
    [getCollectionProducts] write one warning and return the empty list
    without throwing; a body with a truthy [results] member (any array,
    the empty one included) gives that member reshaped, and nothing is
    written. *)
Theorem getCollectionProducts_missing_results_is_soft
    (collection currency : string) (limit : option float)
    (u : URL UrlRecord) (st : State) (r : Response Cause) (body : JsVal) :
  URL_new (API_URL +++ "/v1/collections/" +++ collection +++ "/products") = Some u ->
  let req :=
    get_request u [("currency", QString currency); ("limit", optional_number limit)]
      default_options in
  outcome st req = Resolves r ->
  json r = inr body ->
  nullish body = false ->
  (forall members,
      body = JObject members ->
      obj_lookup members "results" = None ->
      getCollectionProducts collection currency limit st
      = (inr [],
         after_warn (after_fetch st req)
           ("No collection found for `" +++ collection +++ "`")))
  /\ (truthy (member body "results") = false ->
      getCollectionProducts collection currency limit st
      = (inr [],
         after_warn (after_fetch st req)
           ("No collection found for `" +++ collection +++ "`")))
  /\ (truthy (member body "results") = true ->
      getCollectionProducts collection currency limit st
      = (inr (reshapeProducts (member body "results")), after_fetch st req))
  /\ (forall products,
        member body "results" = JArray products ->
        getCollectionProducts collection currency limit st
        = (inr (reshapeProducts (JArray products)), after_fetch st req)).
Proof.
  intros Hu req Ho Hj Hbody.
  assert (Hrun : getCollectionProducts collection currency limit st
                 = if truthy (member body "results")
                   then (inr (reshapeProducts (member body "results")),
                         after_fetch st req)
                   else (inr [],
                         after_warn (after_fetch st req)
                           ("No collection found for `" +++ collection +++ "`"))).
  { unfold getCollectionProducts.
    rewrite (bind_returns _ _ _ _ _ (fourthwallGet_succeeds _ _ _ _ _ _ _ Hu Ho Hj)).
    cbn [snd]. unfold get_prop, bind, ret, console_warn, after_warn.
    rewrite Hbody. now destruct (truthy (member body "results")). }
  split; [| split; [| split]].
  - intros members -> Hnone. rewrite Hrun. cbn [member]. unfold obj_get.
    now rewrite Hnone.
  - intros Hfalsy. now rewrite Hrun, Hfalsy.
  - intros Htruthy. now rewrite Hrun, Htruthy.
  - intros products Hres. now rewrite Hrun, Hres.
Qed.

Lemma map_collections (results : list JsVal) (st : State) :
  Forall (fun c => nullish c = false) results ->
  mapM (E := Thrown)
    (fun collection =>
       slug <- get_prop collection "slug" ;;
       name <- get_prop collection "name" ;;
       description <- get_prop collection "description" ;;
       ret (mkCollection slug name description))
    results st
  = (inr (map collection_of results), st).
Proof.
  induction 1 as [| c results Hc _ IH]; [reflexivity |].
  cbn [mapM map]. unfold bind at 1. unfold get_prop at 1 2 3.
  rewrite Hc. unfold bind, ret in *. now rewrite IH.
Qed.

(** C6: when the provider's body holds the list [results] of records,
    [getCollections] returns, in the same order and number, the
    collections [{ handle: slug, title: name, description }] of those
    records; nothing fails, whatever the length of the list. *)
Theorem getCollections_maps_results_in_order
    (u : URL UrlRecord) (st : State) (r : Response Cause) (body : JsVal)
    (results : list JsVal) :
  URL_new (API_URL +++ "/api/public/v1.0/collections") = Some u ->
  let req := get_request u [] default_options in
  outcome st req = Resolves r ->
  json r = inr body ->
  member body "results" = JArray results ->
  Forall (fun c => nullish c = false) results ->
  let collection c :=
    {| handle := member c "slug";
       title := member c "name";
       description := member c "description" |} in
  let collections := map collection results in
  getCollections st = (inr collections, after_fetch st req)
  /\ length collections = length results
  /\ forall i, nth_error collections i = option_map collection (nth_error results i).
Proof.
  intros Hu req Ho Hj Hres Hall collection collections.
  split; [| split; [apply length_map | intros i; apply nth_error_map]].
  unfold getCollections.
  rewrite (bind_returns _ _ _ _ _ (fourthwallGet_succeeds _ _ _ _ _ _ _ Hu Ho Hj)).
  cbn [snd]. unfold get_prop at 1.
  assert (Hnn : nullish body = false)
    by (destruct body; try reflexivity; discriminate).
  rewrite Hnn. unfold bind at 1, ret at 1. rewrite Hres.
  cbn [Array_map]. now apply map_collections.
Qed.

End Operations.

(* ================================================================== *)
(** ** Further properties: request options, edge cases, what never happens *)

Section Coverage.

Context {RT : Runtime} {EV : ProcessEnv} {RS : Reshape}.

(** *** Members of a built object *)

Lemma obj_lookup_absent (o : JsObj) (k : string) :
  ~ In k (map fst o) -> obj_lookup o k = None.
Proof.
  induction o as [| [k' v'] o IH]; intros Hnot; [reflexivity |].
  simpl in *. destruct (String.eqb_spec k' k) as [-> | Hne].
  - exfalso. apply Hnot. now left.
  - apply IH. intros Hin. apply Hnot. now right.
Qed.

Lemma obj_lookup_set_same (o : JsObj) (k : string) (v : JsVal) :
  obj_lookup (obj_set o k v) k = Some v.
Proof.
  induction o as [| [k' v'] o IH]; simpl.
  - now rewrite String.eqb_refl.
  - destruct (String.eqb_spec k' k) as [-> | Hne]; simpl.
    + now rewrite String.eqb_refl.
    + destruct (String.eqb_spec k' k); [contradiction | exact IH].
Qed.

Lemma obj_lookup_set_other (o : JsObj) (k k0 : string) (v : JsVal) :
  k0 <> k -> obj_lookup (obj_set o k v) k0 = obj_lookup o k0.
Proof.
  intros Hne. induction o as [| [k' v'] o IH]; simpl.
  - destruct (String.eqb_spec k k0); [now subst | reflexivity].
  - destruct (String.eqb_spec k' k) as [-> | Hk]; simpl.
    + destruct (String.eqb_spec k k0); [now subst | reflexivity].
    + destruct (String.eqb_spec k' k0); [reflexivity | exact IH].
Qed.

(** A spread of a record with distinct names: its members win, the
    others stay. *)
Lemma obj_lookup_assign (src target : JsObj) (k : string) :
  NoDup (map fst src) ->
  obj_lookup (obj_assign target src) k
  = match obj_lookup src k with
    | Some v => Some v
    | None => obj_lookup target k
    end.
Proof.
  unfold obj_assign. revert target.
  induction src as [| [k1 v1] src IH]; intros target Hnd; [reflexivity |].
  simpl in Hnd. inversion Hnd as [| ? ? Hnotin Hnd']; subst.
  cbn [fold_left fst snd obj_lookup]. rewrite (IH _ Hnd').
  destruct (String.eqb_spec k1 k) as [-> | Hne].
  - rewrite (obj_lookup_absent _ _ Hnotin). apply obj_lookup_set_same.
  - destruct (obj_lookup src k); [reflexivity |].
    apply obj_lookup_set_other. congruence.
Qed.

(** X2: in the init the helpers hand to fetch, for options given as a
    record whose [headers] are left out or are a record themselves: a
    [method] among the options replaces the helper's own, every other
    option but [headers] (and, on POST, [body]) passes through
    unchanged, [headers] is a record holding the caller's headers and a
    [Content-Type] that is the caller's if given and
    [application/json] otherwise; on POST, [body] is the serialised
    payload, whatever [body] the options hold. *)
Theorem options_override_method_not_body
    (url : string) (query : Query) (options : JsObj) (data : JsVal) (text : string)
    (u : URL UrlRecord) (st : State) :
  NoDup (map fst options) ->
  record_or_absent (obj_get options "headers") = true ->
  NoDup (map fst (own_entries (obj_get options "headers"))) ->
  URL_new url = Some u ->
  JSON_stringify data = Some text ->
  let supplied := own_entries (obj_get options "headers") in
  let chosen (own : string) :=
    match obj_lookup options "method" with
    | Some m => m
    | None => JString own
    end in
  let merged (headers : JsObj) :=
    obj_lookup headers "Content-Type"
    = Some (match obj_lookup supplied "Content-Type" with
            | Some t => t
            | None => JString "application/json"
            end)
    /\ forall h, h <> "Content-Type" -> obj_lookup headers h = obj_lookup supplied h in
  exists get post get_headers post_headers,
    fetched (snd (fourthwallGet url query options st)) = fetched st ++ [get]
    /\ fetched (snd (fourthwallPost url data options st)) = fetched st ++ [post]
    /\ obj_lookup (req_init get) "method" = Some (chosen "GET")
    /\ obj_lookup (req_init post) "method" = Some (chosen "POST")
    /\ (forall k, k <> "method" -> k <> "headers" ->
          obj_lookup (req_init get) k = obj_lookup options k)
    /\ (forall k, k <> "method" -> k <> "headers" -> k <> "body" ->
          obj_lookup (req_init post) k = obj_lookup options k)
    /\ obj_lookup (req_init post) "body" = Some (JString text)
    /\ obj_lookup (req_init get) "headers" = Some (JObject get_headers)
    /\ merged get_headers
    /\ obj_lookup (req_init post) "headers" = Some (JObject post_headers)
    /\ merged post_headers.
Proof.
  intros Hopts _ Hhdrs Hu Htext supplied chosen merged.
  assert (Hmethod : forall own,
             obj_lookup (request_init own options) "method" = Some (chosen own)).
  { intros own. unfold request_init, chosen.
    rewrite obj_lookup_set_other by discriminate.
    rewrite (obj_lookup_assign _ _ _ Hopts).
    now destruct (obj_lookup options "method"). }
  assert (Hpass : forall own k, k <> "method" -> k <> "headers" ->
             obj_lookup (request_init own options) k = obj_lookup options k).
  { intros own k Hm Hh. unfold request_init.
    rewrite (obj_lookup_set_other _ _ _ _ Hh).
    rewrite (obj_lookup_assign _ _ _ Hopts).
    destruct (obj_lookup options k); [reflexivity |].
    cbn [obj_lookup]. destruct (String.eqb_spec "method" k); [congruence | reflexivity]. }
  assert (Hmerged : merged (obj_assign [("Content-Type", JString "application/json")]
                              supplied)).
  { split.
    - rewrite (obj_lookup_assign _ _ _ Hhdrs). fold supplied.
      now destruct (obj_lookup supplied "Content-Type").
    - intros h Hh. rewrite (obj_lookup_assign _ _ _ Hhdrs). fold supplied.
      destruct (obj_lookup supplied h); [reflexivity |].
      cbn [obj_lookup].
      destruct (String.eqb_spec "Content-Type" h); [congruence | reflexivity]. }
  exists (get_request u query options), (post_request url data options).
  do 2 eexists.
  split; [now rewrite (fourthwallGet_runs_once _ _ _ _ _ Hu) |].
  split; [now rewrite fourthwallPost_runs_once |].
  unfold get_request, post_request, stringified. cbn [req_init]. rewrite Htext.
  split; [apply Hmethod |].
  split; [rewrite obj_lookup_set_other by discriminate; apply Hmethod |].
  split; [apply Hpass |].
  split.
  { intros k Hm Hh Hb. rewrite (obj_lookup_set_other _ _ _ _ Hb). now apply Hpass. }
  split; [apply obj_lookup_set_same |].
  split; [unfold request_init; apply obj_lookup_set_same |].
  split; [exact Hmerged |].
  split; [| exact Hmerged].
  rewrite obj_lookup_set_other by discriminate.
  unfold request_init. apply obj_lookup_set_same.
Qed.

(** *** Before the exchange *)

(** X1: [new URL(url)] runs before the [try]: when it throws, the GET
    helper and every GET operation throw that [TypeError] as it is, not
    the object with [error] and [url], and fetch is never called. *)
Theorem unparseable_url_is_a_bare_TypeError (st : State) :
  (forall url query options,
      URL_new url = None ->
      fourthwallGet url query options st = (inl TypeError, st))
  /\ (URL_new (API_URL +++ "/api/public/v1.0/collections") = None ->
      getCollections st = (inl TypeError, st))
  /\ (forall collection currency limit,
        URL_new (API_URL +++ "/v1/collections/" +++ collection +++ "/products") = None ->
        getCollectionProducts collection currency limit st = (inl TypeError, st))
  /\ (forall handle currency,
        URL_new (API_URL +++ "/v1/products/" +++ handle) = None ->
        getProduct handle currency st = (inl TypeError, st))
  /\ (forall cartId currency,
        cartId <> "" ->
        URL_new (API_URL +++ "/v1/carts/" +++ cartId) = None ->
        getCart (Some cartId) currency st = (inl TypeError, st)).
Proof.
  split; [| split; [| split; [| split]]].
  - intros url query options H. now apply fourthwallGet_invalid_url.
  - intros H. unfold getCollections, bind.
    now rewrite (fourthwallGet_invalid_url _ _ _ _ H).
  - intros collection currency limit H. unfold getCollectionProducts, bind.
    now rewrite (fourthwallGet_invalid_url _ _ _ _ H).
  - intros handle currency H. unfold getProduct, bind.
    now rewrite (fourthwallGet_invalid_url _ _ _ _ H).
  - intros cartId currency Hne H. unfold getCart.
    rewrite (cartId_truthy _ Hne). unfold bind. cbn [cartId_text].
    now rewrite (fourthwallGet_invalid_url _ _ _ _ H).
Qed.

(** *** After the exchange *)

(** The callback of [getCollections] over a list: all records, or a
    [TypeError] at the first [null]; the state is not touched. *)
Lemma map_collections_or_TypeError (results : list JsVal) (st : State) :
  mapM (E := Thrown)
    (fun collection =>
       slug <- get_prop collection "slug" ;;
       name <- get_prop collection "name" ;;
       description <- get_prop collection "description" ;;
       ret (mkCollection slug name description))
    results st
  = (if forallb (fun c => negb (nullish c)) results
     then inr (map collection_of results)
     else inl TypeError,
     st).
Proof.
  induction results as [| c results IH]; [reflexivity |].
  cbn [mapM map forallb]. unfold bind at 1. unfold get_prop at 1 2 3.
  destruct (nullish c); [reflexivity |].
  unfold bind, ret, throw in *. rewrite IH. cbn [negb andb].
  now destruct (forallb _ results).
Qed.

Lemma getCollections_settles (u : URL UrlRecord) (st : State) :
  URL_new (API_URL +++ "/api/public/v1.0/collections") = Some u ->
  let req := get_request u [] default_options in
  getCollections st
  = (match settled (outcome st req) (API_URL +++ "/api/public/v1.0/collections") None with
     | inl t => inl t
     | inr res =>
         match member (snd res) "results" with
         | JArray results =>
             if forallb (fun c => negb (nullish c)) results
             then inr (map collection_of results)
             else inl TypeError
         | _ => inl TypeError
         end
     end,
     after_fetch st req).
Proof.
  intros Hu req. unfold getCollections, bind at 1.
  rewrite (fourthwallGet_settles _ _ _ _ _ Hu). fold req.
  destruct (settled (outcome st req) _ None) as [t | [status body]]; [reflexivity |].
  cbn [snd]. unfold bind, get_prop, throw, ret.
  destruct body; cbn [nullish member]; try reflexivity.
  destruct (obj_get members "results"); try reflexivity.
  cbn [Array_map]. apply map_collections_or_TypeError.
Qed.

Lemma getCollectionProducts_settles
    (collection currency : string) (limit : option float)
    (u : URL UrlRecord) (st : State) :
  URL_new (API_URL +++ "/v1/collections/" +++ collection +++ "/products") = Some u ->
  let url := API_URL +++ "/v1/collections/" +++ collection +++ "/products" in
  let req :=
    get_request u [("currency", QString currency); ("limit", optional_number limit)]
      default_options in
  getCollectionProducts collection currency limit st
  = match settled (outcome st req) url None with
    | inl t => (inl t, after_fetch st req)
    | inr res =>
        if nullish (snd res) then (inl TypeError, after_fetch st req)
        else if truthy (member (snd res) "results")
        then (inr (reshapeProducts (member (snd res) "results")), after_fetch st req)
        else (inr [],
              after_warn (after_fetch st req)
                ("No collection found for `" +++ collection +++ "`"))
    end.
Proof.
  intros Hu url req. unfold getCollectionProducts, bind at 1.
  rewrite (fourthwallGet_settles _ _ _ _ _ Hu). fold req. fold url.
  destruct (settled (outcome st req) url None) as [t | [status body]]; [reflexivity |].
  cbn [snd]. unfold bind, get_prop, throw, ret.
  destruct (nullish body); [reflexivity |].
  now destruct (truthy (member body "results")).
Qed.

Lemma getProduct_settles (handle currency : string) (u : URL UrlRecord) (st : State) :
  URL_new (API_URL +++ "/v1/products/" +++ handle) = Some u ->
  let req := get_request u [("currency", QString currency)] default_options in
  getProduct handle currency st
  = (match settled (outcome st req) (API_URL +++ "/v1/products/" +++ handle) None with
     | inl t => inl t
     | inr res => inr (reshapeProduct (snd res))
     end,
     after_fetch st req).
Proof.
  intros Hu req. unfold getProduct, bind, ret.
  rewrite (fourthwallGet_settles _ _ _ _ _ Hu). fold req.
  now destruct (settled (outcome st req) _ None).
Qed.

(** X3: the status of a response plays no part: once the body parses,
    each cart mutation returns the reshaped body, be the status 200, 404
    or 500. *)
Theorem cart_mutations_ignore_status (st : State) (status : float) (body : JsVal) :
  (let req :=
     post_request (API_URL +++ "/v1/carts") (JObject [("items", JArray [])])
       default_options in
   outcome st req = Resolves (mkResponse status (inr body)) ->
   createCart st = (inr (reshapeCart body), after_fetch st req))
  /\ (forall cartId lines,
        let req :=
          post_request (API_URL +++ "/v1/carts/" +++ cartId +++ "/add")
            (JObject
               [("items",
                 JArray
                   (map (fun line =>
                           JObject [("variantId", JString (add_merchandiseId line));
                                    ("quantity", JNumber (add_quantity line))]) lines))])
            no_store in
        outcome st req = Resolves (mkResponse status (inr body)) ->
        addToCart cartId lines st = (inr (reshapeCart body), after_fetch st req))
  /\ (forall cartId lineIds,
        let req :=
          post_request (API_URL +++ "/v1/carts/" +++ cartId +++ "/remove")
            (JObject
               [("items",
                 JArray (map (fun id => JObject [("variantId", JString id)]) lineIds))])
            no_store in
        outcome st req = Resolves (mkResponse status (inr body)) ->
        removeFromCart cartId lineIds st = (inr (reshapeCart body), after_fetch st req))
  /\ (forall cartId lines,
        let req :=
          post_request (API_URL +++ "/v1/carts/" +++ cartId +++ "/change")
            (JObject
               [("items",
                 JArray
                   (map (fun line =>
                           JObject [("variantId", JString (merchandiseId line));
                                    ("quantity", JNumber (quantity line))]) lines))])
            no_store in
        outcome st req = Resolves (mkResponse status (inr body)) ->
        updateCart cartId lines st = (inr (reshapeCart body), after_fetch st req)).
Proof.
  split; [| split; [| split]].
  - intros req H. unfold createCart. rewrite post_then_reshape.
    fold req. now rewrite H.
  - intros cartId lines req H. unfold addToCart. rewrite post_then_reshape.
    fold req. now rewrite H.
  - intros cartId lineIds req H. unfold removeFromCart. rewrite post_then_reshape.
    fold req. now rewrite H.
  - intros cartId lines req H. unfold updateCart. rewrite post_then_reshape.
    fold req. now rewrite H.
Qed.

(** X4: [getProduct] reads no member of the body: with a URL that
    parses it issues one GET with [currency] and the token and no
    [cache] member, hands whatever body came back (also [null]) to
    [reshapeProduct], and fails only with the transport error. *)
Theorem getProduct_reshapes_any_body
    (handle currency : string) (u : URL UrlRecord) (st : State) :
  URL_new (API_URL +++ "/v1/products/" +++ handle) = Some u ->
  let url := API_URL +++ "/v1/products/" +++ handle in
  let req :=
    mkRequest
      (URL_toString
         (mkURL (url_record u)
            (searchParams u ++
               [("currency", currency); ("storefront_token", STOREFRONT_TOKEN)])))
      [("method", JString "GET");
       ("headers", JObject [("Content-Type", JString "application/json")])] in
  getProduct handle currency st
  = (match outcome st req with
     | Rejects e => inl (TransportError e url None)
     | Resolves r =>
         match json r with
         | inl e => inl (TransportError e url None)
         | inr body => inr (reshapeProduct body)
         end
     end,
     after_fetch st req).
Proof.
  intros Hu url req. rewrite (getProduct_settles _ _ _ _ Hu).
  assert (Hreq : get_request u [("currency", QString currency)] default_options = req).
  { unfold req, get_request. rewrite constructUrl_params; [reflexivity |].
    constructor; [intros [] | constructor]. }
  rewrite Hreq. fold url. unfold settled.
  destruct (outcome st req) as [e | r]; [reflexivity |].
  now destruct (json r).
Qed.

(** X5: unlike the products of a collection, the list of collections is
    not soft: once the body parses, [getCollections] returns the mapped
    list exactly when the body's [results] is an array without [null]
    entries, and throws a [TypeError] in every other case ([null] body,
    no [results], [results] not an array, a [null] entry), after its one
    request. *)
Theorem getCollections_needs_a_results_array
    (u : URL UrlRecord) (st : State) (r : Response Cause) (body : JsVal) :
  URL_new (API_URL +++ "/api/public/v1.0/collections") = Some u ->
  let req := get_request u [] default_options in
  outcome st req = Resolves r ->
  json r = inr body ->
  getCollections st
  = (match member body "results" with
     | JArray results =>
         if forallb (fun c => negb (nullish c)) results
         then inr (map collection_of results)
         else inl TypeError
     | _ => inl TypeError
     end,
     after_fetch st req).
Proof.
  intros Hu req Ho Hj. rewrite (getCollections_settles _ _ Hu). fold req.
  rewrite Ho. cbn [settled]. now rewrite Hj.
Qed.

(** X6: once the body parses, [getCollectionProducts] throws a
    [TypeError] on a [null] body, without a warning; otherwise a falsy
    [results] ([undefined], [null], [false], [0], [NaN], the empty
    string) gives the warning and the empty list exactly as a missing
    one does, and any truthy [results] is handed to [reshapeProducts]
    without a warning. *)
Theorem getCollectionProducts_falsy_results_and_null_body
    (collection currency : string) (limit : option float)
    (u : URL UrlRecord) (st : State) (r : Response Cause) (body : JsVal) :
  URL_new (API_URL +++ "/v1/collections/" +++ collection +++ "/products") = Some u ->
  let req :=
    get_request u [("currency", QString currency); ("limit", optional_number limit)]
      default_options in
  outcome st req = Resolves r ->
  json r = inr body ->
  getCollectionProducts collection currency limit st
  = if nullish body then (inl TypeError, after_fetch st req)
    else if truthy (member body "results")
    then (inr (reshapeProducts (member body "results")), after_fetch st req)
    else (inr [],
          after_warn (after_fetch st req)
            ("No collection found for `" +++ collection +++ "`")).
Proof.
  intros Hu req Ho Hj.
  rewrite (getCollectionProducts_settles _ _ _ _ _ Hu). fold req.
  rewrite Ho. cbn [settled]. now rewrite Hj.
Qed.

(** X8: the products URL carries [currency], then [limit] only when a
    limit was given, then the token; the request has no [cache]
    member. *)
Theorem getCollectionProducts_omits_absent_limit
    (collection currency : string) (limit : option float)
    (u : URL UrlRecord) (st : State) :
  URL_new (API_URL +++ "/v1/collections/" +++ collection +++ "/products") = Some u ->
  fetched (snd (getCollectionProducts collection currency limit st))
  = fetched st ++
      [mkRequest
         (URL_toString
            (mkURL (url_record u)
               (searchParams u
                  ++ [("currency", currency)]
                  ++ match limit with
                     | Some n => [("limit", Number_toString n)]
                     | None => []
                     end
                  ++ [("storefront_token", STOREFRONT_TOKEN)])))
         [("method", JString "GET");
          ("headers", JObject [("Content-Type", JString "application/json")])]].
Proof.
  intros Hu. rewrite (getCollectionProducts_settles _ _ _ _ _ Hu).
  set (req := get_request u _ default_options).
  assert (Hreq : fetched (after_fetch st req)
                 = fetched st ++
                     [mkRequest
                        (URL_toString
                           (mkURL (url_record u)
                              (searchParams u
                                 ++ [("currency", currency)]
                                 ++ match limit with
                                    | Some n => [("limit", Number_toString n)]
                                    | None => []
                                    end
                                 ++ [("storefront_token", STOREFRONT_TOKEN)])))
                        [("method", JString "GET");
                         ("headers",
                          JObject [("Content-Type", JString "application/json")])]]).
  { unfold req, get_request. cbn [after_fetch fetched].
    rewrite constructUrl_params.
    - now destruct limit.
    - repeat constructor; simpl; intuition discriminate. }
  destruct (settled (outcome st req) _ None) as [t | res]; [exact Hreq |].
  destruct (nullish (snd res)); [exact Hreq |].
  destruct (truthy (member (snd res) "results")); exact Hreq.
Qed.

(** *** What never happens *)

Lemma extends_by_same {A} (n : nat) (l : list A) : extends_by n l l.
Proof. exists []. split; [now rewrite app_nil_r | simpl; lia]. Qed.

Lemma extends_by_one {A} (l : list A) (x : A) : extends_by 1 l (l ++ [x]).
Proof. exists [x]. split; [reflexivity | simpl; lia]. Qed.

Lemma getCart_settles (cartId currency : string) (u : URL UrlRecord) (st : State) :
  cartId <> "" ->
  URL_new (API_URL +++ "/v1/carts/" +++ cartId) = Some u ->
  let req := get_request u [("currency", QString currency)] no_store in
  getCart (Some cartId) currency st
  = (match settled (outcome st req) (API_URL +++ "/v1/carts/" +++ cartId) None with
     | inl t => inl t
     | inr res => inr (Some (reshapeCart (snd res)))
     end,
     after_fetch st req).
Proof.
  intros Hne Hu req. unfold getCart. rewrite (cartId_truthy _ Hne).
  unfold bind, ret. cbn [cartId_text].
  rewrite (fourthwallGet_settles _ _ _ _ _ Hu). fold req.
  now destruct (settled (outcome st req) _ None).
Qed.

(** X7: no operation retries or fans out: a call adds at most one
    request to those already made and rewrites none of them; only
    [getCollectionProducts] can write to the console, and at most one
    line. *)
Theorem operations_fetch_at_most_once (st : State) :
  (extends_by 1 (fetched st) (fetched (snd (getCollections st)))
   /\ warned (snd (getCollections st)) = warned st)
  /\ (forall collection currency limit,
        extends_by 1 (fetched st)
          (fetched (snd (getCollectionProducts collection currency limit st)))
        /\ extends_by 1 (warned st)
             (warned (snd (getCollectionProducts collection currency limit st))))
  /\ (forall handle currency,
        extends_by 1 (fetched st) (fetched (snd (getProduct handle currency st)))
        /\ warned (snd (getProduct handle currency st)) = warned st)
  /\ (forall cartId currency,
        extends_by 1 (fetched st) (fetched (snd (getCart cartId currency st)))
        /\ warned (snd (getCart cartId currency st)) = warned st)
  /\ (extends_by 1 (fetched st) (fetched (snd (createCart st)))
      /\ warned (snd (createCart st)) = warned st)
  /\ (forall cartId lines,
        extends_by 1 (fetched st) (fetched (snd (addToCart cartId lines st)))
        /\ warned (snd (addToCart cartId lines st)) = warned st)
  /\ (forall cartId lineIds,
        extends_by 1 (fetched st) (fetched (snd (removeFromCart cartId lineIds st)))
        /\ warned (snd (removeFromCart cartId lineIds st)) = warned st)
  /\ (forall cartId lines,
        extends_by 1 (fetched st) (fetched (snd (updateCart cartId lines st)))
        /\ warned (snd (updateCart cartId lines st)) = warned st).
Proof.
  split; [| split; [| split; [| split; [| split; [| split; [| split]]]]]].
  - destruct (URL_new (API_URL +++ "/api/public/v1.0/collections")) as [u |] eqn:Hu.
    + rewrite (getCollections_settles _ _ Hu).
      split; [apply extends_by_one | reflexivity].
    + unfold getCollections, bind. rewrite (fourthwallGet_invalid_url _ _ _ _ Hu).
      split; [apply extends_by_same | reflexivity].
  - intros collection currency limit.
    destruct (URL_new (API_URL +++ "/v1/collections/" +++ collection +++ "/products"))
      as [u |] eqn:Hu.
    + rewrite (getCollectionProducts_settles _ _ _ _ _ Hu).
      set (req := get_request u _ default_options).
      destruct (settled (outcome st req) _ None) as [t | res];
        [split; [apply extends_by_one | apply extends_by_same] |].
      destruct (nullish (snd res));
        [split; [apply extends_by_one | apply extends_by_same] |].
      destruct (truthy (member (snd res) "results"));
        split; try apply extends_by_one; apply extends_by_same.
    + unfold getCollectionProducts, bind.
      rewrite (fourthwallGet_invalid_url _ _ _ _ Hu).
      split; apply extends_by_same.
  - intros handle currency.
    destruct (URL_new (API_URL +++ "/v1/products/" +++ handle)) as [u |] eqn:Hu.
    + rewrite (getProduct_settles _ _ _ _ Hu).
      split; [apply extends_by_one | reflexivity].
    + unfold getProduct, bind. rewrite (fourthwallGet_invalid_url _ _ _ _ Hu).
      split; [apply extends_by_same | reflexivity].
  - intros [cartId |] currency; [| split; [apply extends_by_same | reflexivity]].
    destruct (String.eqb_spec cartId "") as [-> | Hne];
      [split; [apply extends_by_same | reflexivity] |].
    destruct (URL_new (API_URL +++ "/v1/carts/" +++ cartId)) as [u |] eqn:Hu.
    + rewrite (getCart_settles _ _ _ _ Hne Hu).
      split; [apply extends_by_one | reflexivity].
    + unfold getCart. rewrite (cartId_truthy _ Hne). unfold bind. cbn [cartId_text].
      rewrite (fourthwallGet_invalid_url _ _ _ _ Hu).
      split; [apply extends_by_same | reflexivity].
  - unfold createCart. rewrite post_then_reshape.
    split; [apply extends_by_one | reflexivity].
  - intros cartId lines. unfold addToCart. rewrite post_then_reshape.
    split; [apply extends_by_one | reflexivity].
  - intros cartId lineIds. unfold removeFromCart. rewrite post_then_reshape.
    split; [apply extends_by_one | reflexivity].
  - intros cartId lines. unfold updateCart. rewrite post_then_reshape.
    split; [apply extends_by_one | reflexivity].
Qed.

(** X9: the POST helper parses no URL: for every url, also one the
    URL constructor would refuse, every payload and all options, it calls
    fetch once, on the url followed by the token, and whatever it throws
    is the object holding the cause, that url and that payload, never a
    [TypeError]. *)
Theorem fourthwallPost_throws_only_transport_errors
    (url : string) (data : JsVal) (options : JsObj) (st : State) :
  throws_only (fst (fourthwallPost url data options st)) url (Some data)
  /\ exists req,
       fetched (snd (fourthwallPost url data options st)) = fetched st ++ [req]
       /\ req_url req = url +++ "?storefront_token=" +++ STOREFRONT_TOKEN.
Proof.
  rewrite fourthwallPost_settles. split.
  - cbn [fst]. unfold settled.
    destruct (outcome st _) as [e | r]; simpl; [now split |].
    destruct (json r); simpl; [now split | exact I].
  - eexists. split; reflexivity.
Qed.

(** X10: [updateCart] sends what [addToCart] sends for the same
    merchandise ids and quantities: the two requests have the same init
    (method, cache, headers and body) and differ in the endpoint only. *)
Theorem updateCart_sends_the_addToCart_init
    (cartId : string) (lines : list UpdateLine) (st : State) :
  let adds := map (fun l => mkAddLine (merchandiseId l) (quantity l)) lines in
  exists change add,
    fetched (snd (updateCart cartId lines st)) = fetched st ++ [change]
    /\ fetched (snd (addToCart cartId adds st)) = fetched st ++ [add]
    /\ req_init change = req_init add
    /\ req_url change
       = API_URL +++ "/v1/carts/" +++ cartId +++ "/change?storefront_token="
         +++ STOREFRONT_TOKEN
    /\ req_url add
       = API_URL +++ "/v1/carts/" +++ cartId +++ "/add?storefront_token="
         +++ STOREFRONT_TOKEN.
Proof.
  intros adds. do 2 eexists.
  split; [unfold updateCart; rewrite post_then_reshape; reflexivity |].
  split; [unfold addToCart; rewrite post_then_reshape; reflexivity |].
  split.
  - unfold post_request, adds, stringified. cbn [req_init]. now rewrite map_map.
  - split; unfold post_request; cbn [req_url]; now rewrite !append_assoc.
Qed.

End Coverage.

(* ================================================================== *)
(** ** Runs *)

Import Demo.

(** The examples of the spec's test list. *)

Example getCollections_tees :
  fst (getCollections
         (start [ok (JObject
                       [("results",
                         JArray [JObject [("slug", JString "tees");
                                          ("name", JString "T-Shirts");
                                          ("description", JString "d")]])])]))
  = inr [mkCollection (JString "tees") (JString "T-Shirts") (JString "d")].
Proof. reflexivity. Qed.

Example addToCart_cart1 :
  fetched (snd (addToCart "cart1" [mkAddLine "v1" 2%float] (start [ok JNull])))
  = [mkRequest (shop +++ "/v1/carts/cart1/add?storefront_token=")
       [("method", JString "POST");
        ("cache", JString "no-store");
        ("headers", JObject [("Content-Type", JString "application/json")]);
        ("body",
         JString
           ("{" +++ quoted "items" +++ ":[{" +++ quoted "variantId" +++ ":"
            +++ quoted "v1" +++ "," +++ quoted "quantity" +++ ":2}]}"))]].
Proof. reflexivity. Qed.

Example removeFromCart_cart1 :
  map (fun req => obj_get (req_init req) "body")
    (fetched (snd (removeFromCart "cart1" ["v1"; "v2"] (start [ok JNull]))))
  = [JString
       ("{" +++ quoted "items" +++ ":[{" +++ quoted "variantId" +++ ":"
        +++ quoted "v1" +++ "},{" +++ quoted "variantId" +++ ":" +++ quoted "v2"
        +++ "}]}")].
Proof. reflexivity. Qed.

Example getCart_undefined :
  getCart None "USD" (start [ok JNull]) = (inr None, start [ok JNull]).
Proof. reflexivity. Qed.

Example getCart_unparseable_body :
  fst (getCart (Some "cart1") "USD" (start [garbled]))
  = inl (TransportError "Unexpected token < in JSON" (shop +++ "/v1/carts/cart1") None).
Proof. reflexivity. Qed.

(** A falsy [results] member takes the warning path like a missing one,
    and a [null] body makes the member access throw. *)
Example getCollectionProducts_null_results :
  getCollectionProducts "tees" "USD" None (start [ok (JObject [("results", JNull)])])
  = (inr [],
     mkState ([] : World)
       [mkRequest (shop +++ "/v1/collections/tees/products?currency=USD&storefront_token=")
          [("method", JString "GET");
           ("headers", JObject [("Content-Type", JString "application/json")])]]
       ["No collection found for `tees`"]).
Proof. reflexivity. Qed.

Example getCollectionProducts_null_body :
  fst (getCollectionProducts "tees" "USD" None (start [ok JNull])) = inl TypeError.
Proof. reflexivity. Qed.

(** *** Instances of the conditional theorems *)

Lemma helper_urls_carry_params_then_token_witness :
  let url := shop +++ "/v1/collections/tees/products" in
  let query := [("currency", QString "USD"); ("limit", QUndefined); ("page", QNumber 3%float)] in
  NoDup (Object_keys query)
  /\ URL_new url = Some (mkURL url [])
  /\ fetched (snd (fourthwallGet url query default_options (start [])))
     = [mkRequest (url +++ "?currency=USD&page=3&storefront_token=")
          (request_init "GET" default_options)]
  /\ fetched (snd (fourthwallPost url JNull default_options (start [])))
     = [mkRequest (url +++ "?storefront_token=")
          (obj_set (request_init "POST" default_options) "body" (stringified JNull))].
Proof.
  intros url query.
  assert (Hnd : NoDup (Object_keys query)).
  { repeat constructor; simpl; intuition discriminate. }
  split; [exact Hnd |]. split; [reflexivity |].
  exact (helper_urls_carry_params_then_token (RT := runtime) (EV := env) url query JNull default_options
           (mkURL url []) (start []) Hnd eq_refl).
Defined.

Lemma transport_failure_is_thrown_once_witness :
  let st := start [] in
  let at_ url := mkURL (R := string) url [] in
  getCollections st
  = (inl (TransportError "offline" (shop +++ "/api/public/v1.0/collections") None),
     after_fetch st (get_request (at_ (shop +++ "/api/public/v1.0/collections")) []
                       default_options))
  /\ getCollectionProducts "tees" "USD" None st
     = (inl (TransportError "offline" (shop +++ "/v1/collections/tees/products") None),
        after_fetch st
          (get_request (at_ (shop +++ "/v1/collections/tees/products"))
             [("currency", QString "USD"); ("limit", QUndefined)] default_options))
  /\ getProduct "tee" "USD" st
     = (inl (TransportError "offline" (shop +++ "/v1/products/tee") None),
        after_fetch st
          (get_request (at_ (shop +++ "/v1/products/tee"))
             [("currency", QString "USD")] default_options))
  /\ getCart (Some "cart1") "USD" st
     = (inl (TransportError "offline" (shop +++ "/v1/carts/cart1") None),
        after_fetch st
          (get_request (at_ (shop +++ "/v1/carts/cart1"))
             [("currency", QString "USD")] no_store))
  /\ createCart st
     = (inl (TransportError "offline" (shop +++ "/v1/carts")
               (Some (JObject [("items", JArray [])]))),
        after_fetch st
          (post_request (shop +++ "/v1/carts") (JObject [("items", JArray [])])
             default_options))
  /\ fst (addToCart "cart1" [mkAddLine "v1" 2%float] st)
     = inl (TransportError "offline" (shop +++ "/v1/carts/cart1/add")
              (Some (JObject
                       [("items",
                         JArray [JObject [("variantId", JString "v1");
                                          ("quantity", JNumber 2%float)]])])))
  /\ fst (removeFromCart "cart1" ["v1"] st)
     = inl (TransportError "offline" (shop +++ "/v1/carts/cart1/remove")
              (Some (JObject [("items", JArray [JObject [("variantId", JString "v1")]])])))
  /\ fst (updateCart "cart1" [mkUpdateLine "l1" "v1" 3%float] st)
     = inl (TransportError "offline" (shop +++ "/v1/carts/cart1/change")
              (Some (JObject
                       [("items",
                         JArray [JObject [("variantId", JString "v1");
                                          ("quantity", JNumber 3%float)]])]))).
Proof.
  intros st at_.
  destruct (transport_failure_is_thrown_once (RT := runtime) (EV := env) (RS := reshape) st "offline")
    as [H1 [H2 [H3 [H4 [H5 [H6 [H7 H8]]]]]]].
  split; [exact (H1 _ eq_refl eq_refl) |].
  split; [exact (H2 "tees" "USD" None _ eq_refl eq_refl) |].
  split; [exact (H3 "tee" "USD" _ eq_refl eq_refl) |].
  split.
  { refine (H4 "cart1" "USD" _ _ eq_refl eq_refl). discriminate. }
  split; [exact (H5 eq_refl) |].
  split; [exact (f_equal fst (H6 "cart1" [mkAddLine "v1" 2%float] eq_refl)) |].
  split; [exact (f_equal fst (H7 "cart1" ["v1"] eq_refl)) |].
  exact (f_equal fst (H8 "cart1" [mkUpdateLine "l1" "v1" 3%float] eq_refl)).
Defined.

Lemma getCart_absent_or_single_get_witness :
  let body := JObject [("id", JString "cart1")] in
  let st := start [ok body] in
  "cart1" <> ""
  /\ URL_new (shop +++ "/v1/carts/cart1") = Some (mkURL (shop +++ "/v1/carts/cart1") [])
  /\ getCart None "USD" st = (inr None, st)
  /\ fetched (snd (getCart (Some "cart1") "USD" st))
     = [mkRequest (shop +++ "/v1/carts/cart1?currency=USD&storefront_token=")
          [("method", JString "GET");
           ("cache", JString "no-store");
           ("headers", JObject [("Content-Type", JString "application/json")])]]
  /\ fst (getCart (Some "cart1") "USD" st) = inr (Some (reshapeCart body)).
Proof.
  intros body st.
  assert (Hne : "cart1" <> "") by discriminate.
  destruct (getCart_absent_or_single_get (RT := runtime) (EV := env) (RS := reshape) "cart1" "USD"
              (mkURL (shop +++ "/v1/carts/cart1") []) st Hne eq_refl)
    as [Habsent [Hlog [_ [_ [_ Hrun]]]]].
  split; [exact Hne |]. split; [reflexivity |].
  split; [exact Habsent |]. split; [exact Hlog |].
  exact (f_equal fst Hrun).
Defined.

(** C4 as stated fails: with the empty string, a defined cart id, no
    GET goes out. *)
Lemma getCart_defined_id_without_get :
  ~ (forall cartId : string,
        length (fetched (snd (getCart (Some cartId) "USD" (start [ok JNull])))) = 1).
Proof. intros H. specialize (H ""). discriminate H. Qed.

Lemma getCollectionProducts_missing_results_is_soft_witness :
  let url := shop +++ "/v1/collections/tees/products" in
  let req :=
    get_request (mkURL url []) [("currency", QString "USD"); ("limit", QNumber 5%float)]
      default_options in
  let tee := JObject [("slug", JString "tee")] in
  let bare := JObject [] in
  let nulled := JObject [("results", JNull)] in
  let listed := JObject [("results", JArray [tee])] in
  let warning := "No collection found for `tees`" in
  URL_new url = Some (mkURL url [])
  /\ outcome (start [ok bare]) req = Resolves (mkResponse 200%float (inr bare))
  /\ nullish bare = false
  /\ getCollectionProducts "tees" "USD" (Some 5%float) (start [ok bare])
     = (inr [], after_warn (after_fetch (start [ok bare]) req) warning)
  /\ getCollectionProducts "tees" "USD" (Some 5%float) (start [ok nulled])
     = (inr [], after_warn (after_fetch (start [ok nulled]) req) warning)
  /\ getCollectionProducts "tees" "USD" (Some 5%float) (start [ok listed])
     = (inr [tee], after_fetch (start [ok listed]) req).
Proof.
  intros url req tee bare nulled listed warning.
  pose (run body :=
          getCollectionProducts_missing_results_is_soft (RT := runtime) (EV := env)
            (RS := reshape) "tees" "USD" (Some 5%float) (mkURL url []) (start [ok body])
            (mkResponse 200%float (inr body)) body eq_refl eq_refl eq_refl).
  split; [reflexivity |]. split; [reflexivity |]. split; [reflexivity |].
  split; [exact (proj1 (run bare eq_refl) [] eq_refl eq_refl) |].
  split; [exact (proj1 (proj2 (run nulled eq_refl)) eq_refl) |].
  exact (proj2 (proj2 (proj2 (run listed eq_refl))) [tee] eq_refl).
Defined.

(** C5 as stated fails twice.  A [null] body has no [results] member,
    and the call throws.  A body with a [results] member that is [null]
    gives the empty list, whatever the reshaping of [null] would be:
    here [reshapeProducts] answers with one product for every value. *)
Lemma getCollectionProducts_not_soft_on_null_body :
  ~ (forall body : JsVal,
        member body "results" = JUndefined ->
        fst (getCollectionProducts "tees" "USD" None (start [ok body])) = inr [])
  /\ ~ (forall (RS : Reshape) (body results : JsVal),
          member body "results" = results ->
          results <> JUndefined ->
          fst (getCollectionProducts (RS := RS) "tees" "USD" None (start [ok body]))
          = inr (reshapeProducts results)).
Proof.
  split.
  - intros H. specialize (H JNull eq_refl). discriminate H.
  - intros H.
    specialize (H {| Cart := unit;
                     Product := unit;
                     reshapeCart := fun _ => tt;
                     reshapeProduct := fun _ => None;
                     reshapeProducts := fun _ => [tt] |}
                  (JObject [("results", JNull)]) JNull eq_refl).
    assert (Hne : JNull <> JUndefined) by discriminate.
    specialize (H Hne). discriminate H.
Qed.

Lemma getCollections_maps_results_in_order_witness :
  let url := shop +++ "/api/public/v1.0/collections" in
  let req := get_request (mkURL url []) [] default_options in
  let tees :=
    JObject [("slug", JString "tees"); ("name", JString "T-Shirts");
             ("description", JString "d")] in
  let body := JObject [("results", JArray [tees; JObject []])] in
  let empty := JObject [("results", JArray [])] in
  URL_new url = Some (mkURL url [])
  /\ member body "results" = JArray [tees; JObject []]
  /\ Forall (fun c => nullish c = false) [tees; JObject []]
  /\ getCollections (start [ok body])
     = (inr [mkCollection (JString "tees") (JString "T-Shirts") (JString "d");
             mkCollection JUndefined JUndefined JUndefined],
        after_fetch (start [ok body]) req)
  /\ getCollections (start [ok empty]) = (inr [], after_fetch (start [ok empty]) req).
Proof.
  intros url req tees body empty.
  assert (Hall : Forall (fun c => nullish c = false) [tees; JObject []])
    by (repeat constructor).
  split; [reflexivity |]. split; [reflexivity |]. split; [exact Hall |].
  split.
  - exact (proj1
             (getCollections_maps_results_in_order (RT := runtime) (EV := env)
                (mkURL url []) (start [ok body])
                (mkResponse 200%float (inr body)) body [tees; JObject []]
                eq_refl eq_refl eq_refl eq_refl Hall)).
  - exact (proj1
             (getCollections_maps_results_in_order (RT := runtime) (EV := env)
                (mkURL url []) (start [ok empty])
                (mkResponse 200%float (inr empty)) empty []
                eq_refl eq_refl eq_refl eq_refl (Forall_nil _))).
Defined.

Lemma addToCart_posts_lines_in_order_witness :
  let lines := [mkAddLine "v1" 2%float; mkAddLine "v2" 1%float] in
  let items :=
    [JObject [("variantId", JString "v1"); ("quantity", JNumber 2%float)];
     JObject [("variantId", JString "v2"); ("quantity", JNumber 1%float)]] in
  let text :=
    "{" +++ quoted "items" +++ ":[{" +++ quoted "variantId" +++ ":" +++ quoted "v1"
    +++ "," +++ quoted "quantity" +++ ":2},{" +++ quoted "variantId" +++ ":"
    +++ quoted "v2" +++ "," +++ quoted "quantity" +++ ":1}]}" in
  length items = length lines
  /\ JSON_stringify (JObject [("items", JArray items)]) = Some text
  /\ fetched (snd (addToCart "cart1" lines (start [ok JNull])))
     = [mkRequest (shop +++ "/v1/carts/cart1/add?storefront_token=")
          [("method", JString "POST");
           ("cache", JString "no-store");
           ("headers", JObject [("Content-Type", JString "application/json")]);
           ("body", JString text)]].
Proof.
  intros lines items text.
  assert (Hnth : forall i line,
             nth_error lines i = Some line ->
             nth_error items i
             = Some (JObject [("variantId", JString (add_merchandiseId line));
                              ("quantity", JNumber (add_quantity line))])).
  { intros [| [| i]] line H; simpl in H.
    - now inversion H.
    - now inversion H.
    - destruct i; discriminate H. }
  split; [reflexivity |]. split; [reflexivity |].
  exact (addToCart_posts_lines_in_order (RT := runtime) (EV := env) (RS := reshape)
           "cart1" lines items text (start [ok JNull]) eq_refl Hnth eq_refl).
Defined.

Lemma removeFromCart_posts_ids_in_order_witness :
  let lineIds := ["v1"; "v2"] in
  let items :=
    [JObject [("variantId", JString "v1")]; JObject [("variantId", JString "v2")]] in
  let text :=
    "{" +++ quoted "items" +++ ":[{" +++ quoted "variantId" +++ ":" +++ quoted "v1"
    +++ "},{" +++ quoted "variantId" +++ ":" +++ quoted "v2" +++ "}]}" in
  length items = length lineIds
  /\ JSON_stringify (JObject [("items", JArray items)]) = Some text
  /\ fetched (snd (removeFromCart "cart1" lineIds (start [ok JNull])))
     = [mkRequest (shop +++ "/v1/carts/cart1/remove?storefront_token=")
          [("method", JString "POST");
           ("cache", JString "no-store");
           ("headers", JObject [("Content-Type", JString "application/json")]);
           ("body", JString text)]].
Proof.
  intros lineIds items text.
  assert (Hnth : forall i id,
             nth_error lineIds i = Some id ->
             nth_error items i = Some (JObject [("variantId", JString id)])).
  { intros [| [| i]] id H; simpl in H.
    - now inversion H.
    - now inversion H.
    - destruct i; discriminate H. }
  split; [reflexivity |]. split; [reflexivity |].
  exact (removeFromCart_posts_ids_in_order (RT := runtime) (EV := env) (RS := reshape)
           "cart1" lineIds items text (start [ok JNull]) eq_refl Hnth eq_refl).
Defined.

Lemma updateCart_sends_variant_and_quantity_only_witness :
  let lines := [mkUpdateLine "line-a" "v1" 3%float; mkUpdateLine "line-b" "v2" 0%float] in
  let items :=
    [JObject [("variantId", JString "v1"); ("quantity", JNumber 3%float)];
     JObject [("variantId", JString "v2"); ("quantity", JNumber 0%float)]] in
  let text :=
    "{" +++ quoted "items" +++ ":[{" +++ quoted "variantId" +++ ":" +++ quoted "v1"
    +++ "," +++ quoted "quantity" +++ ":3},{" +++ quoted "variantId" +++ ":"
    +++ quoted "v2" +++ "," +++ quoted "quantity" +++ ":0}]}" in
  length items = length lines
  /\ JSON_stringify (JObject [("items", JArray items)]) = Some text
  /\ fetched (snd (updateCart "cart1" lines (start [ok JNull])))
     = [mkRequest (shop +++ "/v1/carts/cart1/change?storefront_token=")
          [("method", JString "POST");
           ("cache", JString "no-store");
           ("headers", JObject [("Content-Type", JString "application/json")]);
           ("body", JString text)]]
  /\ updateCart "cart1"
       [mkUpdateLine "other" "v1" 3%float; mkUpdateLine "other" "v2" 0%float]
       (start [ok JNull])
     = updateCart "cart1" lines (start [ok JNull]).
Proof.
  intros lines items text.
  assert (Hnth : forall i line,
             nth_error lines i = Some line ->
             nth_error items i
             = Some (JObject [("variantId", JString (merchandiseId line));
                              ("quantity", JNumber (quantity line))])).
  { intros [| [| i]] line H; simpl in H.
    - now inversion H.
    - now inversion H.
    - destruct i; discriminate H. }
  split; [reflexivity |]. split; [reflexivity |].
  exact (updateCart_sends_variant_and_quantity_only (RT := runtime) (EV := env)
           (RS := reshape) "cart1" lines items text (fun _ => "other")
           (start [ok JNull]) eq_refl Hnth eq_refl).
Defined.

(** *** Instances of the further theorems *)

Lemma unparseable_url_is_a_bare_TypeError_witness :
  let st := start [ok JNull] in
  URL_new "storefront.local/v1/carts/cart1" = None
  /\ fourthwallGet (EV := misconfigured) "storefront.local/v1/carts/cart1"
       [("currency", QString "USD")] no_store st
     = (inl TypeError, st)
  /\ getCollections (EV := misconfigured) st = (inl TypeError, st)
  /\ getCollectionProducts (EV := misconfigured) "tees" "USD" None st = (inl TypeError, st)
  /\ getProduct (EV := misconfigured) "tee" "USD" st = (inl TypeError, st)
  /\ getCart (EV := misconfigured) (Some "cart1") "USD" st = (inl TypeError, st).
Proof.
  intros st.
  destruct (unparseable_url_is_a_bare_TypeError (RT := runtime) (EV := misconfigured)
              (RS := reshape) st)
    as [H1 [H2 [H3 [H4 H5]]]].
  split; [reflexivity |].
  split; [exact (H1 "storefront.local/v1/carts/cart1" _ _ eq_refl) |].
  split; [exact (H2 eq_refl) |].
  split; [exact (H3 "tees" "USD" None eq_refl) |].
  split; [exact (H4 "tee" "USD" eq_refl) |].
  refine (H5 "cart1" "USD" _ eq_refl). discriminate.
Defined.

Lemma options_override_method_not_body_witness :
  let url := shop +++ "/v1/carts" in
  let options :=
    [("method", JString "PUT");
     ("cache", JString "no-store");
     ("headers", JObject [("X-ShopId", JString "s1")]);
     ("body", JString "ignored")] in
  let data := JObject [("items", JArray [])] in
  let text := "{" +++ quoted "items" +++ ":[]}" in
  NoDup (map fst options)
  /\ record_or_absent (obj_get options "headers") = true
  /\ URL_new url = Some (mkURL url [])
  /\ JSON_stringify data = Some text
  /\ exists get post headers,
       fetched (snd (fourthwallGet url [] options (start []))) = [get]
       /\ fetched (snd (fourthwallPost url data options (start []))) = [post]
       /\ obj_lookup (req_init get) "method" = Some (JString "PUT")
       /\ obj_lookup (req_init get) "cache" = Some (JString "no-store")
       /\ obj_lookup (req_init get) "body" = Some (JString "ignored")
       /\ obj_lookup (req_init post) "method" = Some (JString "PUT")
       /\ obj_lookup (req_init post) "cache" = Some (JString "no-store")
       /\ obj_lookup (req_init post) "body" = Some (JString text)
       /\ obj_lookup (req_init post) "headers" = Some (JObject headers)
       /\ obj_lookup headers "Content-Type" = Some (JString "application/json")
       /\ obj_lookup headers "X-ShopId" = Some (JString "s1").
Proof.
  intros url options data text.
  assert (Hopts : NoDup (map fst options)).
  { repeat constructor; simpl; intuition discriminate. }
  assert (Hhdrs : NoDup (map fst (own_entries (obj_get options "headers")))).
  { repeat constructor; simpl; intuition discriminate. }
  destruct (options_override_method_not_body (RT := runtime) (EV := env)
              url [] options data text (mkURL url []) (start [])
              Hopts eq_refl Hhdrs eq_refl eq_refl)
    as [get [post [get_headers [post_headers
         [Hget [Hpost [Hgm [Hpm [Hgk [Hpk [Hbody [_ [_ [Hph [Hct Hother]]]]]]]]]]]]]]].
  split; [exact Hopts |]. split; [reflexivity |]. split; [reflexivity |].
  split; [reflexivity |].
  exists get, post, post_headers.
  split; [exact Hget |]. split; [exact Hpost |].
  split; [exact Hgm |].
  split; [refine (Hgk "cache" _ _); discriminate |].
  split; [refine (Hgk "body" _ _); discriminate |].
  split; [exact Hpm |].
  split; [refine (Hpk "cache" _ _ _); discriminate |].
  split; [exact Hbody |].
  split; [exact Hph |].
  split; [exact Hct |].
  refine (Hother "X-ShopId" _). discriminate.
Defined.

Lemma cart_mutations_ignore_status_witness :
  let body := JObject [("error", JString "cart not found")] in
  let st := start [Resolves (mkResponse 404%float (inr body))] in
  fst (createCart st) = inr (reshapeCart body)
  /\ fst (addToCart "gone" [mkAddLine "v1" 1%float] st) = inr (reshapeCart body)
  /\ fst (removeFromCart "gone" ["v1"] st) = inr (reshapeCart body)
  /\ fst (updateCart "gone" [mkUpdateLine "l1" "v1" 0%float] st) = inr (reshapeCart body).
Proof.
  intros body st.
  destruct (cart_mutations_ignore_status (RT := runtime) (EV := env) (RS := reshape)
              st 404%float body)
    as [H1 [H2 [H3 H4]]].
  split; [exact (f_equal fst (H1 eq_refl)) |].
  split; [exact (f_equal fst (H2 "gone" [mkAddLine "v1" 1%float] eq_refl)) |].
  split; [exact (f_equal fst (H3 "gone" ["v1"] eq_refl)) |].
  exact (f_equal fst (H4 "gone" [mkUpdateLine "l1" "v1" 0%float] eq_refl)).
Defined.

Lemma getProduct_reshapes_any_body_witness :
  let url := shop +++ "/v1/products/tee" in
  URL_new url = Some (mkURL url [])
  /\ getProduct "tee" "USD" (start [ok JNull])
     = (inr (reshapeProduct JNull),
        mkState ([] : World)
          [mkRequest (url +++ "?currency=USD&storefront_token=")
             [("method", JString "GET");
              ("headers", JObject [("Content-Type", JString "application/json")])]]
          []).
Proof.
  intros url. split; [reflexivity |].
  exact (getProduct_reshapes_any_body (RT := runtime) (EV := env) (RS := reshape)
           "tee" "USD" (mkURL url []) (start [ok JNull]) eq_refl).
Defined.

Lemma getCollections_needs_a_results_array_witness :
  let url := shop +++ "/api/public/v1.0/collections" in
  let req := get_request (mkURL url []) [] default_options in
  let holed := JObject [("results", JArray [JObject [("slug", JString "tees")]; JNull])] in
  URL_new url = Some (mkURL url [])
  /\ getCollections (start [ok JNull]) = (inl TypeError, after_fetch (start [ok JNull]) req)
  /\ getCollections (start [ok (JObject [])])
     = (inl TypeError, after_fetch (start [ok (JObject [])]) req)
  /\ getCollections (start [ok holed]) = (inl TypeError, after_fetch (start [ok holed]) req).
Proof.
  intros url req holed. split; [reflexivity |].
  split; [| split].
  - exact (getCollections_needs_a_results_array (RT := runtime) (EV := env)
             (mkURL url []) (start [ok JNull]) (mkResponse 200%float (inr JNull)) JNull
             eq_refl eq_refl eq_refl).
  - exact (getCollections_needs_a_results_array (RT := runtime) (EV := env)
             (mkURL url []) (start [ok (JObject [])])
             (mkResponse 200%float (inr (JObject []))) (JObject [])
             eq_refl eq_refl eq_refl).
  - exact (getCollections_needs_a_results_array (RT := runtime) (EV := env)
             (mkURL url []) (start [ok holed]) (mkResponse 200%float (inr holed)) holed
             eq_refl eq_refl eq_refl).
Defined.

Lemma getCollectionProducts_falsy_results_and_null_body_witness :
  let url := shop +++ "/v1/collections/tees/products" in
  let req :=
    get_request (mkURL url []) [("currency", QString "USD"); ("limit", QUndefined)]
      default_options in
  let zero := JObject [("results", JNumber 0%float)] in
  URL_new url = Some (mkURL url [])
  /\ getCollectionProducts "tees" "USD" None (start [ok JNull])
     = (inl TypeError, after_fetch (start [ok JNull]) req)
  /\ getCollectionProducts "tees" "USD" None (start [ok zero])
     = (inr [], after_warn (after_fetch (start [ok zero]) req)
                  "No collection found for `tees`").
Proof.
  intros url req zero. split; [reflexivity |]. split.
  - exact (getCollectionProducts_falsy_results_and_null_body (RT := runtime) (EV := env)
             (RS := reshape) "tees" "USD" None (mkURL url []) (start [ok JNull])
             (mkResponse 200%float (inr JNull)) JNull eq_refl eq_refl eq_refl).
  - exact (getCollectionProducts_falsy_results_and_null_body (RT := runtime) (EV := env)
             (RS := reshape) "tees" "USD" None (mkURL url []) (start [ok zero])
             (mkResponse 200%float (inr zero)) zero eq_refl eq_refl eq_refl).
Defined.

Lemma getCollectionProducts_omits_absent_limit_witness :
  let url := shop +++ "/v1/collections/tees/products" in
  let init :=
    [("method", JString "GET");
     ("headers", JObject [("Content-Type", JString "application/json")])] in
  URL_new url = Some (mkURL url [])
  /\ fetched (snd (getCollectionProducts "tees" "USD" None (start [])))
     = [mkRequest (url +++ "?currency=USD&storefront_token=") init]
  /\ fetched (snd (getCollectionProducts "tees" "USD" (Some 5%float) (start [])))
     = [mkRequest (url +++ "?currency=USD&limit=5&storefront_token=") init].
Proof.
  intros url init. split; [reflexivity |]. split.
  - exact (getCollectionProducts_omits_absent_limit (RT := runtime) (EV := env)
             (RS := reshape) "tees" "USD" None (mkURL url []) (start []) eq_refl).
  - exact (getCollectionProducts_omits_absent_limit (RT := runtime) (EV := env)
             (RS := reshape) "tees" "USD" (Some 5%float) (mkURL url []) (start []) eq_refl).
Defined.
